(** * AISVE waste-classification station (PR4/main.py): activation controller

    A shallow embedding of [WasteClassificationSystem] and the properties
    of its sensor-fusion loop.

    Modelling conventions.
    - Python floats (timestamps, distances, confidences) are exact
      rationals [Q]; only their order and their field operations are used.
    - [self] is the record [State]; a method is a function on [State] that
      also returns the list of device calls and console lines it made.
    - A value the program obtains from the world (a clock reading, a GPIO
      level, a captured frame, the detections of the model) is an explicit
      argument.  Input devices may fault: a GPIO read, a capture or an
      inference can raise, and the handlers of the source are followed.
      Output-only devices (LED strip, OLED, preview window, console) are
      event emitters that do not fault.
    - The constants of the DETECTION CONFIGURATION block are the fields of
      [Config]; [PR4_config] holds the values of PR4/main.py. *)

From Stdlib Require Import QArith Qabs Qround Lqa.
From Stdlib Require Import ZArith Lia Bool List String Arith.
Import ListNotations.

Local Open Scope string_scope.
Local Open Scope list_scope.
Local Open Scope Q_scope.

(** ** Comparisons on floats *)

Definition Qltb (x y : Q) : bool := negb (Qle_bool y x).
Definition Qgtb (x y : Q) : bool := Qltb y x.
Definition Qgeb (x y : Q) : bool := Qle_bool y x.

(** ** Configuration *)

Definition NUM_PIXELS : nat := 12.
Definition LED_COLOR : Z := 0xFFFFFF.

Record Config := {
  MOTION_THRESHOLD : Q;      (* cm *)
  LIGHT_ON_DURATION : Q;     (* seconds *)
  MEASUREMENT_INTERVAL : Q;
  CAMERA_TIMEOUT : Q;        (* maximum time camera stays active *)
  CLASSIFICATION_DELAY : Q   (* delay between classifications *)
}.

Definition PR4_config : Config := {|
  MOTION_THRESHOLD := 50;
  LIGHT_ON_DURATION := 10;
  MEASUREMENT_INTERVAL := 2 # 10;
  CAMERA_TIMEOUT := 15;
  CLASSIFICATION_DELAY := 1
|}.

(** Mapping from YOLO model labels to display categories, in the order of
    the dict literal. *)
Definition LABEL_MAPPING : list (string * string) :=
  [ ("plastic", "PLASTIC");
    ("paper", "PAPER");
    ("cardboard", "CARDBOARD");
    ("organic", "ORGANIC");
    ("green-glass", "GLASS") ].

Fixpoint dict_get (d : list (string * string)) (k : string) : option string :=
  match d with
  | [] => None
  | (k', v) :: d' => if String.eqb k k' then Some v else dict_get d' k
  end.

Definition WAITING : string := "WAITING...".
Definition UNIDENTIFIED : string := "UNIDENTIFIED".
Definition CAMERA_ERROR : string := "CAMERA ERROR".

(** ** State *)

Inductive Picamera2 := Picamera2_handle.
Inductive YOLO := YOLO_handle.

Record State := {
  lights_on_until : Q;
  camera_active_until : Q;
  previous_distance : option Q;
  last_classification : string;
  classification_confidence : Q;
  is_running : bool;
  last_classification_time : Q;
  camera_window_open : bool;
  picam2 : option Picamera2;
  model : option YOLO;
  pixels : list Z
}.

Definition set_lights_on_until (v : Q) (s : State) : State :=
  {| lights_on_until := v;
     camera_active_until := camera_active_until s;
     previous_distance := previous_distance s;
     last_classification := last_classification s;
     classification_confidence := classification_confidence s;
     is_running := is_running s;
     last_classification_time := last_classification_time s;
     camera_window_open := camera_window_open s;
     picam2 := picam2 s; model := model s; pixels := pixels s |}.

Definition set_camera_active_until (v : Q) (s : State) : State :=
  {| lights_on_until := lights_on_until s;
     camera_active_until := v;
     previous_distance := previous_distance s;
     last_classification := last_classification s;
     classification_confidence := classification_confidence s;
     is_running := is_running s;
     last_classification_time := last_classification_time s;
     camera_window_open := camera_window_open s;
     picam2 := picam2 s; model := model s; pixels := pixels s |}.

Definition set_previous_distance (v : option Q) (s : State) : State :=
  {| lights_on_until := lights_on_until s;
     camera_active_until := camera_active_until s;
     previous_distance := v;
     last_classification := last_classification s;
     classification_confidence := classification_confidence s;
     is_running := is_running s;
     last_classification_time := last_classification_time s;
     camera_window_open := camera_window_open s;
     picam2 := picam2 s; model := model s; pixels := pixels s |}.

(** [self.last_classification] and [self.classification_confidence] are
    always assigned together. *)
Definition set_classification (c : string) (conf : Q) (s : State) : State :=
  {| lights_on_until := lights_on_until s;
     camera_active_until := camera_active_until s;
     previous_distance := previous_distance s;
     last_classification := c;
     classification_confidence := conf;
     is_running := is_running s;
     last_classification_time := last_classification_time s;
     camera_window_open := camera_window_open s;
     picam2 := picam2 s; model := model s; pixels := pixels s |}.

Definition set_last_classification_time (v : Q) (s : State) : State :=
  {| lights_on_until := lights_on_until s;
     camera_active_until := camera_active_until s;
     previous_distance := previous_distance s;
     last_classification := last_classification s;
     classification_confidence := classification_confidence s;
     is_running := is_running s;
     last_classification_time := v;
     camera_window_open := camera_window_open s;
     picam2 := picam2 s; model := model s; pixels := pixels s |}.

Definition set_camera_window_open (v : bool) (s : State) : State :=
  {| lights_on_until := lights_on_until s;
     camera_active_until := camera_active_until s;
     previous_distance := previous_distance s;
     last_classification := last_classification s;
     classification_confidence := classification_confidence s;
     is_running := is_running s;
     last_classification_time := last_classification_time s;
     camera_window_open := v;
     picam2 := picam2 s; model := model s; pixels := pixels s |}.

Definition set_pixels (v : list Z) (s : State) : State :=
  {| lights_on_until := lights_on_until s;
     camera_active_until := camera_active_until s;
     previous_distance := previous_distance s;
     last_classification := last_classification s;
     classification_confidence := classification_confidence s;
     is_running := is_running s;
     last_classification_time := last_classification_time s;
     camera_window_open := camera_window_open s;
     picam2 := picam2 s; model := model s; pixels := v |}.

(** The state [__init__] leaves behind; [cam] and [mdl] are what
    [initialize_camera_and_model] stored (both [None] when it failed). *)
Definition init_state (cam : option Picamera2) (mdl : option YOLO) : State :=
  {| lights_on_until := 0;
     camera_active_until := 0;
     previous_distance := None;
     last_classification := WAITING;
     classification_confidence := 0;
     is_running := true;
     last_classification_time := 0;
     camera_window_open := false;
     picam2 := cam; model := mdl;
     pixels := repeat 0%Z NUM_PIXELS |}.

(** [initialize_camera_and_model]: [ok] tells whether every step of the
    [try] block went through; the handler stores [None] in both fields. *)
Definition initialize_camera_and_model (ok : bool)
  : option Picamera2 * option YOLO :=
  if ok then (Some Picamera2_handle, Some YOLO_handle) else (None, None).

(** ** Device calls and console lines *)

Inductive event :=
| EvCapture            (* self.picam2.capture_array() *)
| EvNamedWindow        (* cv2.namedWindow *)
| EvInfer              (* self.model(frame, verbose=False) *)
| EvImshow             (* cv2.imshow / cv2.waitKey *)
| EvDestroyAllWindows  (* cv2.destroyAllWindows() *)
| EvPixelsShow         (* self.pixels.show() *)
| EvPrint (line : string).   (* print of a fixed line; the lines that
                                format a number or an exception are
                                left out *)

Definition event_eqb (a b : event) : bool :=
  match a, b with
  | EvCapture, EvCapture => true
  | EvNamedWindow, EvNamedWindow => true
  | EvInfer, EvInfer => true
  | EvImshow, EvImshow => true
  | EvDestroyAllWindows, EvDestroyAllWindows => true
  | EvPixelsShow, EvPixelsShow => true
  | EvPrint x, EvPrint y => String.eqb x y
  | _, _ => false
  end.

Definition count_event (e : event) (l : list event) : nat :=
  List.length (filter (event_eqb e) l).

(** ** Motion detection by distance change *)

Definition detect_motion (current_distance : Q) (s : State) : bool * State :=
  match previous_distance s with
  | None => (false, set_previous_distance (Some current_distance) s)
  | Some prev =>
      let distance_change := Qabs (current_distance - prev) in
      (Qgtb distance_change 5,
       set_previous_distance (Some current_distance) s)
  end.

(** Feeding a sequence of samples, oldest first. *)
Fixpoint detect_motion_seq (ds : list Q) (s : State) : list bool * State :=
  match ds with
  | [] => ([], s)
  | d :: ds' =>
      let '(m, s1) := detect_motion d s in
      let '(ms, s2) := detect_motion_seq ds' s1 in
      (m :: ms, s2)
  end.

(** ** Illumination *)

(** [for i in range(NUM_PIXELS): self.pixels[i] = LED_COLOR]; an index
    outside the strip raises in Python and is never produced by the loop. *)
Fixpoint list_set (l : list Z) (i : nat) (v : Z) : list Z :=
  match l, i with
  | [], _ => []
  | _ :: l', O => v :: l'
  | x :: l', S i' => x :: list_set l' i' v
  end.

Definition turn_on_lights (cfg : Config) (now : Q) (s : State)
  : State * list event :=
  let px := fold_left (fun p i => list_set p i LED_COLOR)
                      (seq 0 NUM_PIXELS) (pixels s) in
  (set_lights_on_until (now + LIGHT_ON_DURATION cfg) (set_pixels px s),
   [EvPixelsShow; EvPrint "Lights ON - Dark environment detected"]).

Definition turn_off_lights (s : State) : State * list event :=
  (set_pixels (map (fun _ => 0%Z) (pixels s)) s, [EvPixelsShow]).

Definition should_lights_be_on (now : Q) (s : State) : bool :=
  Qltb now (lights_on_until s).

(** ** Ambient light *)

(** [lgpio.gpio_read(self.h, LDR_PIN) == 1]; [None] is a read that raised. *)
Definition is_dark (ldr : option bool) : bool :=
  match ldr with
  | Some level => level
  | None => false
  end.

(** ** Camera and classifier *)

Record Frame := { frame_size : N }.    (* frame.size *)

Record Box := {
  conf : Q;      (* float(box.conf[0]), a fraction *)
  cls : nat      (* int(box.cls[0]) *)
}.

(** [names] is the class table of the model; every class id a box carries
    is one of its keys. *)
Record Result := {
  boxes : option (list Box);
  names : nat -> string
}.

Inductive capture_outcome :=
| CaptureRaises
| CaptureReturns (frame : option Frame).

Inductive infer_outcome :=
| InferRaises
| InferReturns (results : list Result).

Record CameraEnv := {
  capture : capture_outcome;   (* self.picam2.capture_array() *)
  infer : infer_outcome        (* self.model(frame, verbose=False) *)
}.

(** The body of the inner [for box in result.boxes] loop; the accumulator
    is [(best_category, highest_conf)]. *)
Definition scan_box (nm : nat -> string) (acc : string * Q) (box : Box)
  : string * Q :=
  let '(best_category, highest_conf) := acc in
  let confidence := conf box * 100 in
  if Qgtb confidence 60 && Qgtb confidence highest_conf then
    let original_label := nm (cls box) in
    match dict_get LABEL_MAPPING original_label with
    | Some category => (category, confidence)
    | None => acc
    end
  else acc.

Definition scan_result (acc : string * Q) (result : Result) : string * Q :=
  match boxes result with
  | Some bs => fold_left (scan_box (names result)) bs acc
  | None => acc
  end.

Definition select_best (results : list Result) : string * Q :=
  fold_left scan_result results ("", 0).

(** Truth value of a Python string. *)
Definition truthy (x : string) : bool :=
  match x with
  | EmptyString => false
  | String _ _ => true
  end.

(** What lines 269-277 store as the current result. *)
Definition classification_of (results : list Result) : string * Q :=
  let '(best_category, highest_conf) := select_best results in
  if truthy best_category then (best_category, highest_conf)
  else (UNIDENTIFIED, 0).

Definition classify_waste (cfg : Config) (current_time : Q) (w : CameraEnv)
    (s : State) : State * list event :=
  match picam2 s, model s with
  | Some _, Some _ =>
      if Qltb (current_time - last_classification_time s)
              (CLASSIFICATION_DELAY cfg)
      then (s, [])
      else
        match capture w with
        | CaptureRaises =>
            (set_classification CAMERA_ERROR 0 s, [EvCapture])
        | CaptureReturns None => (s, [EvCapture])
        | CaptureReturns (Some frame) =>
            if N.eqb (frame_size frame) 0 then (s, [EvCapture])
            else
              let '(s1, ev1) :=
                if camera_window_open s then (s, [])
                else (set_camera_window_open true s, [EvNamedWindow]) in
              match infer w with
              | InferRaises =>
                  (set_classification CAMERA_ERROR 0 s1,
                   EvCapture :: ev1 ++ [EvInfer])
              | InferReturns results =>
                  let '(c, p) := classification_of results in
                  (set_last_classification_time current_time
                     (set_classification c p s1),
                   EvCapture :: ev1 ++ [EvInfer; EvImshow])
              end
        end
  | _, _ => (s, [])
  end.

(** ** One iteration of [sensor_monitoring_loop] *)

Record TickEnv := {
  env_distance : option Q;   (* self.measure_distance() *)
  env_ldr : option bool;     (* the LDR read of self.is_dark() *)
  env_t_camera : Q;          (* time.time() when the camera window is armed *)
  env_t_lights : Q;          (* time.time() inside turn_on_lights *)
  env_t_now : Q;             (* current_time = time.time() *)
  env_t_classify : Q;        (* time.time() inside classify_waste *)
  env_camera : CameraEnv;
  env_t_manage : Q           (* time.time() inside should_lights_be_on *)
}.

Definition is_some {A} (o : option A) : bool :=
  match o with Some _ => true | None => false end.

Definition object_detected (cfg : Config) (distance : Q) : bool :=
  Qle_bool distance (MOTION_THRESHOLD cfg).

(** Lines 349-361. *)
Definition tick_sense (cfg : Config) (e : TickEnv) (s : State)
  : State * list event :=
  match env_distance e with
  | Some distance =>
      let detected := object_detected cfg distance in
      let dark_environment := is_dark (env_ldr e) in
      let s1 :=
        if detected
        then set_camera_active_until (env_t_camera e + CAMERA_TIMEOUT cfg) s
        else s in
      if detected && dark_environment
      then turn_on_lights cfg (env_t_lights e) s1
      else (s1, [])
  | None => (s, [])
  end.

(** Lines 363-377. *)
Definition tick_camera (cfg : Config) (e : TickEnv) (s : State)
  : State * list event :=
  let current_time := env_t_now e in
  if Qltb current_time (camera_active_until s) && is_some (picam2 s)
  then classify_waste cfg (env_t_classify e) (env_camera e) s
  else if Qgeb current_time (camera_active_until s) then
    let '(s1, ev1) :=
      if negb (String.eqb (last_classification s) WAITING)
      then (set_classification WAITING 0 s,
            [EvPrint "Camera idle - waiting for motion..."])
      else (s, []) in
    let '(s2, ev2) :=
      if camera_window_open s1
      then (set_camera_window_open false s1, [EvDestroyAllWindows])
      else (s1, []) in
    (s2, ev1 ++ ev2)
  else (s, []).

(** Lines 379-383. *)
Definition tick_lights (e : TickEnv) (s : State) : State * list event :=
  if negb (should_lights_be_on (env_t_manage e) s)
     && Qgtb (lights_on_until s) 0
  then
    let '(s1, ev1) := turn_off_lights s in
    (set_lights_on_until 0 s1, ev1 ++ [EvPrint "Lights OFF"])
  else (s, []).

(** The body of the [while self.is_running] loop.  [update_display] reads
    the state and draws; it changes no field. *)
Definition tick (cfg : Config) (e : TickEnv) (s : State)
  : State * list event :=
  let '(s1, ev1) := tick_sense cfg e s in
  let '(s2, ev2) := tick_camera cfg e s1 in
  let '(s3, ev3) := tick_lights e s2 in
  (s3, ev1 ++ ev2 ++ ev3).

(** Consecutive iterations of the body; the events are kept per iteration.
    [is_running] is true from [__init__] until [cleanup], which runs once
    the loop is left, so the loop condition holds before each of them. *)
Fixpoint run (cfg : Config) (es : list TickEnv) (s : State)
  : State * list (list event) :=
  match es with
  | [] => (s, [])
  | e :: es' =>
      let '(s1, ev) := tick cfg e s in
      let '(s2, evs) := run cfg es' s1 in
      (s2, ev :: evs)
  end.

(** ** Range sensor *)

(** One call of [measure_distance] alternates clock reads and echo reads:
    [clock k] is what the k-th call of [time.time()] returns (k = 0 for
    the read that fixes the deadline) and [echo k] is the level seen by
    the k-th [gpio_read] of the echo pin, taken after clock read k;
    [None] is a read that raised.  The trigger pulse that precedes them is
    an output and leaves no trace here.  The loops are bounded by [fuel],
    one unit per echo read. *)
Inductive outcome :=
| OutOfFuel
| Returned (distance : option Q) (last_read : nat).

Section RangeSensor.
Variable clock : nat -> Q.
Variable echo : nat -> option bool.

(** [while gpio_read(ECHO_PIN) == 1], entered after clock read [k]. *)
Fixpoint wait_fall (fuel k : nat) (start_time end_time timeout : Q)
  : outcome :=
  match fuel with
  | O => OutOfFuel
  | S fuel' =>
      match echo k with
      | None => Returned None k
      | Some true =>
          let end_time' := clock (S k) in
          if Qgtb end_time' timeout then Returned None (S k)
          else wait_fall fuel' (S k) start_time end_time' timeout
      | Some false =>
          let pulse_duration := end_time - start_time in
          Returned (Some ((pulse_duration * 34300) / 2)) k
      end
  end.

(** [while gpio_read(ECHO_PIN) == 0], entered after clock read [k]. *)
Fixpoint wait_rise (fuel k : nat) (start_time timeout : Q) : outcome :=
  match fuel with
  | O => OutOfFuel
  | S fuel' =>
      match echo k with
      | None => Returned None k
      | Some false =>
          let start_time' := clock (S k) in
          if Qgtb start_time' timeout then Returned None (S k)
          else wait_rise fuel' (S k) start_time' timeout
      | Some true =>
          let end_time := clock (S k) in
          wait_fall fuel' (S k) start_time end_time timeout
      end
  end.

Definition deadline : Q := clock 0 + (1 # 10).

Definition measure_distance (fuel : nat) : outcome :=
  let start_time := clock 0 in
  let timeout := start_time + (1 # 10) in
  wait_rise fuel 0 start_time timeout.

End RangeSensor.

(** ** OLED display *)

Definition OLED_WIDTH : Z := 128.
Definition OLED_HEIGHT : Z := 64.

(** The default font as the drawing code uses it: [getbbox] gives
    (left, top, right, bottom) and [getsize] (width, height); [None] is a
    call that raised (an older PIL has no [getbbox]). *)
Record Font := {
  getbbox : string -> option (Z * Z * Z * Z);
  getsize : string -> option (Z * Z)
}.

(** What is drawn: a string, or the confidence line
    [f"Conf: {confidence:.1f}%"], whose number is kept unformatted. *)
Inductive display_text :=
| Text (content : string)
| ConfText (confidence : Q).

Record draw_op := {
  at_x : Z;
  at_y : Z;
  shown : display_text
}.

(** The [try]/[except] of [draw_centered_text]: the size of the text. *)
Definition text_size (font : Font) (text : string) : option (Z * Z) :=
  match getbbox font text with
  | Some (x0, y0, x1, y1) => Some (x1 - x0, y1 - y0)%Z
  | None => getsize font text
  end.

(** [None]: the fallback raised too and nothing is drawn. *)
Definition draw_centered_text (font : Font) (text : string) (y_offset : Z)
  : option draw_op :=
  match text_size font text with
  | Some (font_width, font_height) =>
      let x := ((OLED_WIDTH - font_width) / 2)%Z in
      let y := ((OLED_HEIGHT - font_height) / 2 + y_offset)%Z in
      Some {| at_x := x; at_y := y; shown := Text text |}
  | None => None
  end.

Fixpoint sequence_ops (l : list (option draw_op)) : option (list draw_op) :=
  match l with
  | [] => Some []
  | None :: _ => None
  | Some op :: l' =>
      match sequence_ops l' with
      | Some ops => Some (op :: ops)
      | None => None
      end
  end.

(** [display_startup_message]: the image sent to the OLED, [None] when a
    text could not be measured. *)
Definition display_startup_message (font : Font) : option (list draw_op) :=
  sequence_ops [ draw_centered_text font "WASTE" (-15);
                 draw_centered_text font "CLASSIFIER" 0;
                 draw_centered_text font "Starting..." 15 ].

(** [update_display]: the image sent to the OLED; [t_status] is the clock
    read of the status line and [t_led] the one inside
    [should_lights_be_on].  [None]: an exception reached the handler and
    the OLED keeps its previous image.  No field of [self] is assigned. *)
Definition update_display (font : Font) (t_status t_led : Q) (s : State)
  : option (list draw_op) :=
  let title := {| at_x := 30; at_y := 2; shown := Text "CLASSIFIER" |} in
  let body :=
    if Qgtb (classification_confidence s) 0 then
      Some [ {| at_x := 5; at_y := 18;
                shown := Text ("Type: " ++ last_classification s) |};
             {| at_x := 5; at_y := 32;
                shown := ConfText (classification_confidence s) |} ]
    else
      match draw_centered_text font (last_classification s) 5 with
      | Some op => Some [op]
      | None => None
      end in
  let cam :=
    {| at_x := 5; at_y := 46;
       shown := if Qltb t_status (camera_active_until s)
                then Text "CAM: ACTIVE" else Text "CAM: IDLE" |} in
  let led :=
    {| at_x := 85; at_y := 46;
       shown := if should_lights_be_on t_led s
                then Text "LED: ON" else Text "LED: OFF" |} in
  match body with
  | Some b => Some (title :: b ++ [cam; led])
  | None => None
  end.

(** ** Shutdown *)

(** The device calls of [cleanup].  Each release sits in a handler of its
    own.  A call that is the last of its handler can raise without any
    consequence; a call that is followed by another takes an outcome:
    [true] when it returns, [false] when it raises. *)
Inductive release :=
| OledFill
| OledShow
| DestroyAllWindows
| StripOff
| CameraStop
| CameraClose
| GpioChipClose.

Record CleanupEnv := {
  oled_fill_ok : bool;      (* self.oled.fill(0) *)
  camera_stop_ok : bool;    (* self.picam2.stop() *)
  camera_close_ok : bool    (* self.picam2.close() *)
}.

Definition set_is_running (v : bool) (s : State) : State :=
  {| lights_on_until := lights_on_until s;
     camera_active_until := camera_active_until s;
     previous_distance := previous_distance s;
     last_classification := last_classification s;
     classification_confidence := classification_confidence s;
     is_running := v;
     last_classification_time := last_classification_time s;
     camera_window_open := camera_window_open s;
     picam2 := picam2 s; model := model s; pixels := pixels s |}.

Definition set_picam2 (v : option Picamera2) (s : State) : State :=
  {| lights_on_until := lights_on_until s;
     camera_active_until := camera_active_until s;
     previous_distance := previous_distance s;
     last_classification := last_classification s;
     classification_confidence := classification_confidence s;
     is_running := is_running s;
     last_classification_time := last_classification_time s;
     camera_window_open := camera_window_open s;
     picam2 := v; model := model s; pixels := pixels s |}.

(** [cleanup]: the state it leaves and the releases it attempted, in
    order. *)
Definition cleanup (c : CleanupEnv) (s : State) : State * list release :=
  let s0 := set_is_running false s in
  (* clear display *)
  let r1 := if oled_fill_ok c then [OledFill; OledShow] else [OledFill] in
  (* close camera window *)
  let r2 := if camera_window_open s0 then [DestroyAllWindows] else [] in
  (* turn off lights *)
  let s3 := fst (turn_off_lights s0) in
  let r3 := [StripOff] in
  (* stop camera *)
  let '(s4, r4) :=
    match picam2 s3 with
    | Some _ =>
        if camera_stop_ok c then
          if camera_close_ok c
          then (set_picam2 None s3, [CameraStop; CameraClose])
          else (s3, [CameraStop; CameraClose])
        else (s3, [CameraStop])
    | None => (s3, [])
    end in
  (* close GPIO *)
  (s4, r1 ++ r2 ++ r3 ++ r4 ++ [GpioChipClose]).

(** [run]: the loop, left by an interrupt after the iterations [es], then
    [cleanup] in the [finally] clause. *)
Definition run_system (cfg : Config) (es : list TickEnv) (c : CleanupEnv)
    (s : State) : State * list release :=
  cleanup c (fst (run cfg es s)).

(** * Vocabulary of the properties

    Observations of a run, predicates on detections and camera
    behaviours, and the concrete scenarios the properties are stated on. *)

(** The detections in the order the two nested loops visit them: the
    label the model gives the box and its confidence as a percentage. *)
Definition detections_of (result : Result) : list (string * Q) :=
  match boxes result with
  | Some bs => map (fun b => (names result (cls b), conf b * 100)) bs
  | None => []
  end.

Definition detections (results : list Result) : list (string * Q) :=
  flat_map detections_of results.

(** A detection counts when its confidence is above 60% and its label is
    a key of [LABEL_MAPPING]. *)
Definition qualifies (d : string * Q) : Prop :=
  60 < snd d /\ dict_get LABEL_MAPPING (fst d) <> None.

(** The loop body on a detection. *)
Definition scan_detection (acc : string * Q) (d : string * Q) : string * Q :=
  let '(best_category, highest_conf) := acc in
  if Qgtb (snd d) 60 && Qgtb (snd d) highest_conf then
    match dict_get LABEL_MAPPING (fst d) with
    | Some category => (category, snd d)
    | None => acc
    end
  else acc.

(** What the accumulator holds once the detections [seen] are processed:
    nothing when none of them qualifies, and otherwise the category and
    confidence of the first qualifying detection of highest confidence. *)
Definition best_so_far (seen : list (string * Q)) (acc : string * Q) : Prop :=
  (acc = ("", 0) /\ forall d, In d seen -> ~ qualifies d)
  \/ (exists before d after,
        seen = before ++ d :: after
        /\ qualifies d
        /\ dict_get LABEL_MAPPING (fst d) = Some (fst acc)
        /\ snd acc = snd d
        /\ (forall d', In d' before -> qualifies d' -> snd d' < snd d)
        /\ (forall d', In d' after -> qualifies d' -> snd d' <= snd d)).

(** The three detections of the example: plastic at 55%, paper at 72% and
    a label outside the table at 99%. *)
Definition example_names (c : nat) : string :=
  match c with
  | O => "plastic"
  | S O => "paper"
  | _ => "unknown"
  end.

Definition example_result : Result :=
  {| boxes := Some [ {| conf := 55 # 100; cls := 0 |};
                     {| conf := 72 # 100; cls := 1 |};
                     {| conf := 99 # 100; cls := 2 |} ];
     names := example_names |}.

(** The state after a start-up in which camera and model initialised. *)
Definition ready_state : State :=
  init_state (Some Picamera2_handle) (Some YOLO_handle).

(** An attempt is completed when the frame is not empty and the model
    returns its detections: the only path that reaches
    [self.last_classification_time = current_time]. *)
Definition completes (w : CameraEnv) : bool :=
  match capture w, infer w with
  | CaptureReturns (Some frame), InferReturns _ =>
      negb (N.eqb (frame_size frame) 0)
  | _, _ => false
  end.

(** The faults of an attempt: the capture raises, or the frame is there
    and the inference raises. *)
Definition raises (w : CameraEnv) : bool :=
  match capture w, infer w with
  | CaptureRaises, _ => true
  | CaptureReturns (Some frame), InferRaises =>
      negb (N.eqb (frame_size frame) 0)
  | _, _ => false
  end.

(** The captured frame is [None] or has size 0. *)
Definition no_frame (w : CameraEnv) : bool :=
  match capture w with
  | CaptureReturns None => true
  | CaptureReturns (Some frame) => N.eqb (frame_size frame) 0
  | CaptureRaises => false
  end.

(** Camera behaviours: no frame, a capture that raises, an inference that
    raises on a full 640x480 RGB frame, and the detections of the example. *)
Definition no_frame_env : CameraEnv :=
  {| capture := CaptureReturns None; infer := InferReturns [] |}.

Definition capture_raises_env : CameraEnv :=
  {| capture := CaptureRaises; infer := InferReturns [] |}.

Definition infer_raises_env : CameraEnv :=
  {| capture := CaptureReturns (Some {| frame_size := 921600%N |});
     infer := InferRaises |}.

Definition paper_env : CameraEnv :=
  {| capture := CaptureReturns (Some {| frame_size := 921600%N |});
     infer := InferReturns [example_result] |}.

(** The camera expiry one iteration leaves behind. *)
Definition camera_step (cfg : Config) (e : TickEnv) (expiry : Q) : Q :=
  match env_distance e with
  | Some distance =>
      if object_detected cfg distance
      then env_t_camera e + CAMERA_TIMEOUT cfg
      else expiry
  | None => expiry
  end.

(** The light expiry after lines 349-361. *)
Definition light_arm (cfg : Config) (e : TickEnv) (expiry : Q) : Q :=
  match env_distance e with
  | Some distance =>
      if object_detected cfg distance && is_dark (env_ldr e)
      then env_t_lights e + LIGHT_ON_DURATION cfg
      else expiry
  | None => expiry
  end.

(** The light expiry one iteration leaves behind: armed, then cleared by
    lines 379-383 once it has passed. *)
Definition light_step (cfg : Config) (e : TickEnv) (expiry : Q) : Q :=
  let armed := light_arm cfg e expiry in
  if negb (Qltb (env_t_manage e) armed) && Qgtb armed 0 then 0 else armed.

(** The inputs of an iteration that takes place at time [t]: each of its
    clock reads returns [t]. *)
Definition env_at (t : Q) (distance : option Q) (dark : bool)
    (w : CameraEnv) : TickEnv :=
  {| env_distance := distance; env_ldr := Some dark;
     env_t_camera := t; env_t_lights := t; env_t_now := t;
     env_t_classify := t; env_camera := w; env_t_manage := t |}.

(** The configuration of the scenario: a light duration of 5 s (the value
    PR2B/main.py configures), the other constants as in PR4. *)
Definition scenario_config : Config :=
  {| MOTION_THRESHOLD := MOTION_THRESHOLD PR4_config;
     LIGHT_ON_DURATION := 5;
     MEASUREMENT_INTERVAL := MEASUREMENT_INTERVAL PR4_config;
     CAMERA_TIMEOUT := CAMERA_TIMEOUT PR4_config;
     CLASSIFICATION_DELAY := CLASSIFICATION_DELAY PR4_config |}.

(** Readings 100, 100, 40, 100 at times 0, 1, 2, 3, in the dark. *)
Definition scenario (w0 w1 w2 w3 : CameraEnv) : list TickEnv :=
  [ env_at 0 (Some 100) true w0; env_at 1 (Some 100) true w1;
    env_at 2 (Some 40) true w2; env_at 3 (Some 100) true w3 ].



(** One arm/expire cycle: an object at time 100 arms the window to 115,
    the iterations at 100 and 101 are inside it, the one at 115 crosses
    the expiry and the one at 116 follows. *)
Definition cycle (w : CameraEnv) : list TickEnv :=
  [ env_at 100 (Some 40) false w; env_at 101 (Some 100) false w;
    env_at 115 (Some 100) false w; env_at 116 (Some 100) false w ].

(** The state after a start-up in which [initialize_camera_and_model]
    failed. *)
Definition failed_start : State :=
  init_state (fst (initialize_camera_and_model false))
             (snd (initialize_camera_and_model false)).



(** *** Further vocabulary *)

(** The current result is either one of the three sentinels with
    confidence 0, or a display category with a confidence above 60. *)
Definition result_consistent (s : State) : Prop :=
  (classification_confidence s = 0 /\
   (last_classification s = WAITING \/
    last_classification s = UNIDENTIFIED \/
    last_classification s = CAMERA_ERROR))
  \/ (60 < classification_confidence s /\
      exists label, dict_get LABEL_MAPPING label
                    = Some (last_classification s)).

(** The classify clock reads of the iterations that complete an attempt. *)
Fixpoint completion_times (cfg : Config) (es : list TickEnv) (s : State)
  : list Q :=
  match es with
  | [] => []
  | e :: es' =>
      let '(s1, ev) := tick cfg e s in
      if existsb (event_eqb EvImshow) ev
      then env_t_classify e :: completion_times cfg es' s1
      else completion_times cfg es' s1
  end.

(** Each time is at least [gap] after the one before it, [prev] for the
    first. *)
Fixpoint spaced (gap prev : Q) (ts : list Q) : Prop :=
  match ts with
  | [] => True
  | t :: ts' => gap <= t - prev /\ spaced gap t ts'
  end.

(** The strip shows what the light window says: dark with a cleared
    expiry, or fully lit with a positive one. *)
Definition strip_consistent (s : State) : Prop :=
  (lights_on_until s = 0 /\ pixels s = repeat 0%Z NUM_PIXELS)
  \/ (0 < lights_on_until s /\ pixels s = repeat LED_COLOR NUM_PIXELS).

(** The clock reads that touch the light window are not negative. *)
Definition light_clock_nonneg (e : TickEnv) : Prop :=
  0 <= env_t_lights e /\ 0 <= env_t_manage e.

(** Two iterations get the same range, light and clock inputs; the camera
    may behave differently. *)
Definition same_sensors (e1 e2 : TickEnv) : Prop :=
  env_distance e1 = env_distance e2 /\ env_ldr e1 = env_ldr e2 /\
  env_t_camera e1 = env_t_camera e2 /\ env_t_lights e1 = env_t_lights e2 /\
  env_t_manage e1 = env_t_manage e2.

(** The echo line shows one pulse: low before read [a], high from [a] up
    to [b], low at read [b]. *)
Definition pulse (echo : nat -> option bool) (a b : nat) : Prop :=
  (a < b)%nat /\
  (forall k, (k < a)%nat -> echo k = Some false) /\
  (forall k, (a <= k < b)%nat -> echo k = Some true) /\
  echo b = Some false.

(** A font whose glyphs are 6 by 11 pixels, measured by [getbbox]. *)
Definition font_6x11 : Font :=
  {| getbbox := fun text =>
       Some (0, 0, 6 * Z.of_nat (String.length text), 11)%Z;
     getsize := fun _ => None |}.

(** Every release of the shutdown returns. *)
Definition all_ok : CleanupEnv :=
  {| oled_fill_ok := true; camera_stop_ok := true;
     camera_close_ok := true |}.

(** The margins left and right of a centred text differ by at most one
    pixel, and so do those above and below once [y_offset] is taken off. *)
Definition centred (op : draw_op) (w h y_offset : Z) : Prop :=
  (0 <= OLED_WIDTH - w - 2 * at_x op <= 1)%Z /\
  (0 <= OLED_HEIGHT - h - 2 * (at_y op - y_offset) <= 1)%Z.

(** Two states agree on both windows and on the strip. *)
Definition same_windows (s1 s2 : State) : Prop :=
  lights_on_until s1 = lights_on_until s2 /\
  camera_active_until s1 = camera_active_until s2 /\
  pixels s1 = pixels s2.









(** * Properties *)

(** ** Comparisons *)

Lemma Qltb_lt x y : Qltb x y = true <-> x < y.
Proof.
  unfold Qltb. rewrite negb_true_iff.
  split; intro H.
  - apply Qnot_le_lt. intro L. apply Qle_bool_iff in L. congruence.
  - destruct (Qle_bool y x) eqn:E; [|reflexivity].
    apply Qle_bool_iff in E. exfalso. apply (Qlt_not_le _ _ H E).
Qed.

Lemma Qltb_ge x y : Qltb x y = false <-> y <= x.
Proof.
  unfold Qltb. rewrite negb_false_iff. apply Qle_bool_iff.
Qed.

Lemma Qgtb_gt x y : Qgtb x y = true <-> y < x.
Proof. apply Qltb_lt. Qed.

Lemma Qgtb_le x y : Qgtb x y = false <-> x <= y.
Proof. apply Qltb_ge. Qed.

Lemma Qgeb_ge x y : Qgeb x y = true <-> y <= x.
Proof. apply Qle_bool_iff. Qed.

Lemma Qgeb_lt x y : Qgeb x y = false <-> x < y.
Proof.
  unfold Qgeb. split; intro H.
  - apply Qnot_le_lt. intro L. apply Qle_bool_iff in L. congruence.
  - destruct (Qle_bool y x) eqn:E; [|reflexivity].
    apply Qle_bool_iff in E. exfalso. apply (Qlt_not_le _ _ H E).
Qed.

(** ** Setters and projections *)

Ltac state_simpl :=
  cbn [lights_on_until camera_active_until previous_distance
       last_classification classification_confidence is_running
       last_classification_time camera_window_open picam2 model pixels
       set_lights_on_until set_camera_active_until set_previous_distance
       set_classification set_last_classification_time
       set_camera_window_open set_pixels fst snd] in *.

(** ** Motion detection *)

Lemma detect_motion_previous d s :
  previous_distance (snd (detect_motion d s)) = Some d.
Proof.
  unfold detect_motion. destruct (previous_distance s); reflexivity.
Qed.

Lemma detect_motion_seq_cons d ds s :
  fst (detect_motion_seq (d :: ds) s) =
  fst (detect_motion d s)
  :: fst (detect_motion_seq ds (snd (detect_motion d s))).
Proof.
  cbn [detect_motion_seq].
  destruct (detect_motion d s) as [m s1]. cbn [fst snd].
  destruct (detect_motion_seq ds s1) as [ms s2]. reflexivity.
Qed.

(** The flag of sample [i] when a previous sample [p] is stored. *)
Lemma detect_motion_seq_nth_some ds : forall s p i,
  previous_distance s = Some p ->
  nth i (fst (detect_motion_seq ds s)) false = true <->
  (i < List.length ds)%nat /\
  5 < Qabs (nth i ds 0 - match i with O => p | S j => nth j ds 0 end).
Proof.
  induction ds as [|d ds IH]; intros s p i Hp.
  - cbn. destruct i; split; try discriminate; intros [H _]; inversion H.
  - rewrite detect_motion_seq_cons. destruct i as [|i].
    + cbn [nth List.length]. unfold detect_motion. rewrite Hp. cbn [fst].
      rewrite Qgtb_gt. split; [intro H; split; [lia | exact H] | tauto].
    + cbn [nth List.length].
      rewrite (IH _ d i (detect_motion_previous d s)).
      destruct i; (split; intros [H1 H2]; (split; [lia | exact H2])).
Qed.

Lemma detect_motion_seq_nth_none ds s i :
  previous_distance s = None ->
  nth i (fst (detect_motion_seq ds s)) false = true <->
  exists j, i = S j /\ (i < List.length ds)%nat /\
            5 < Qabs (nth i ds 0 - nth j ds 0).
Proof.
  intro Hp. destruct ds as [|d ds].
  - cbn. destruct i; split; try discriminate;
      intros (j & _ & H & _); inversion H.
  - rewrite detect_motion_seq_cons. destruct i as [|i].
    + unfold detect_motion. rewrite Hp. cbn [fst nth].
      split; [discriminate | intros (j & H & _); discriminate].
    + cbn [nth List.length].
      rewrite (detect_motion_seq_nth_some ds _ d i
                 (detect_motion_previous d s)).
      split.
      * intros [H1 H2]. exists i. split; [reflexivity|].
        split; [lia|]. destruct i; exact H2.
      * intros (j & Hj & H1 & H2). injection Hj as <-.
        split; [lia|]. destruct i; exact H2.
Qed.

(** C8.  Starting with no previous sample (after construction, or once the
    stored sample has been cleared), [detect_motion] answers false on the
    first sample of any sequence, and it answers true on sample [i] exactly
    when [i] has an immediate predecessor in the sequence and the two
    differ by more than 5.0 cm; no older sample takes part. *)
Theorem detect_motion_first_sample_and_delta :
  forall (s : State) (ds : list Q),
    previous_distance s = None ->
    nth 0 (fst (detect_motion_seq ds s)) false = false /\
    forall i,
      nth i (fst (detect_motion_seq ds s)) false = true <->
      exists j, i = S j /\ (i < List.length ds)%nat /\
                5 < Qabs (nth i ds 0 - nth j ds 0).
Proof.
  intros s ds Hp. split.
  - destruct (nth 0 (fst (detect_motion_seq ds s)) false) eqn:E;
      [|reflexivity].
    apply (detect_motion_seq_nth_none ds s 0 Hp) in E.
    destruct E as (j & Hj & _). discriminate.
  - intro i. apply detect_motion_seq_nth_none. exact Hp.
Qed.

Lemma detect_motion_first_sample_and_delta_witness :
  previous_distance (init_state None None) = None /\
  nth 0 (fst (detect_motion_seq [100; 40; 42] (init_state None None))) false
  = false.
Proof.
  split; [reflexivity|].
  apply (detect_motion_first_sample_and_delta
           (init_state None None) [100; 40; 42]).
  reflexivity.
Defined.

(** ** Illumination window *)

Lemma turn_on_lights_expiry cfg now s :
  lights_on_until (fst (turn_on_lights cfg now s))
  = now + LIGHT_ON_DURATION cfg.
Proof. reflexivity. Qed.

(** Every pixel of a strip of [NUM_PIXELS] gets the full-brightness
    colour. *)
Lemma turn_on_lights_pixels cfg now s :
  List.length (pixels s) = NUM_PIXELS ->
  pixels (fst (turn_on_lights cfg now s)) = repeat LED_COLOR NUM_PIXELS.
Proof.
  unfold turn_on_lights, NUM_PIXELS.
  cbn [fst pixels set_lights_on_until set_pixels].
  generalize (pixels s). intros l H.
  do 12 (destruct l as [|? l]; [discriminate H|]).
  destruct l; [reflexivity | discriminate H].
Qed.

(** C3.  After [turn_on_lights] at time [t1], [should_lights_be_on] at
    [now] holds exactly when [now < t1 + LIGHT_ON_DURATION].  A second
    call at a later time [t2] stores [t2 + LIGHT_ON_DURATION] whatever
    the stored expiry was, which is never earlier than the old expiry. *)
Theorem illumination_window_is_last_call_plus_duration :
  forall (cfg : Config) (s : State) (t1 t2 : Q),
    t1 <= t2 ->
    let s1 := fst (turn_on_lights cfg t1 s) in
    let s2 := fst (turn_on_lights cfg t2 s1) in
    (forall now,
        should_lights_be_on now s1 = true
        <-> now < t1 + LIGHT_ON_DURATION cfg) /\
    lights_on_until s2 = t2 + LIGHT_ON_DURATION cfg /\
    lights_on_until s1 <= lights_on_until s2 /\
    (forall now,
        should_lights_be_on now s2 = true
        <-> now < t2 + LIGHT_ON_DURATION cfg) /\
    (forall now,
        should_lights_be_on now s1 = true ->
        should_lights_be_on now s2 = true).
Proof.
  intros cfg s t1 t2 Hle s1 s2.
  assert (E1 : lights_on_until s1 = t1 + LIGHT_ON_DURATION cfg)
    by reflexivity.
  assert (E2 : lights_on_until s2 = t2 + LIGHT_ON_DURATION cfg)
    by reflexivity.
  unfold should_lights_be_on. rewrite E1, E2.
  split; [intro now; apply Qltb_lt|].
  split; [reflexivity|].
  split; [lra|].
  split; [intro now; apply Qltb_lt|].
  intros now H. apply Qltb_lt in H. apply Qltb_lt. lra.
Qed.

Lemma illumination_window_is_last_call_plus_duration_witness :
  3 <= 4 /\
  lights_on_until
    (fst (turn_on_lights PR4_config 4
            (fst (turn_on_lights PR4_config 3 (init_state None None)))))
  = 4 + 10.
Proof.
  assert (H : 3 <= 4) by (unfold Qle; simpl; lia).
  split; [exact H|].
  exact (proj1 (proj2 (illumination_window_is_last_call_plus_duration
                         PR4_config (init_state None None) 3 4 H))).
Defined.

(** ** Selection over detections *)

Lemma scan_result_detections result acc :
  scan_result acc result = fold_left scan_detection (detections_of result) acc.
Proof.
  unfold scan_result, detections_of.
  destruct (boxes result) as [bs|]; [|reflexivity].
  revert acc. induction bs as [|b bs IH]; intro acc; [reflexivity|].
  cbn [fold_left map]. rewrite IH. reflexivity.
Qed.

Lemma select_best_detections results :
  select_best results = fold_left scan_detection (detections results) ("", 0).
Proof.
  unfold select_best, detections. generalize ("", 0) as acc.
  induction results as [|r rs IH]; intro acc; [reflexivity|].
  cbn [fold_left flat_map]. rewrite fold_left_app, IH.
  f_equal. apply scan_result_detections.
Qed.

Lemma LABEL_MAPPING_truthy label category :
  dict_get LABEL_MAPPING label = Some category -> truthy category = true.
Proof.
  unfold LABEL_MAPPING. cbn [dict_get].
  repeat match goal with
         | |- context [String.eqb ?a ?b] => destruct (String.eqb a b)
         end;
    intro H; inversion H; reflexivity.
Qed.

(** A detection that leaves the accumulator as it is. *)
Lemma best_so_far_skip seen acc d :
  best_so_far seen acc ->
  (qualifies d -> snd d <= snd acc /\ ~ snd acc == 0) ->
  best_so_far (seen ++ [d]) acc.
Proof.
  intros [[Eacc Hno] | (before & d0 & after & Es & Hq0 & Ed0 & Eq0 & Hb & Ha)]
         Hd.
  - left. split; [exact Eacc|].
    intros d' Hin. apply in_app_or in Hin.
    destruct Hin as [Hin | [<- | []]]; [exact (Hno d' Hin)|].
    intro Hq. destruct (Hd Hq) as [_ Hnz]. apply Hnz.
    rewrite Eacc. reflexivity.
  - right. exists before, d0, (after ++ [d]).
    split; [rewrite Es, <- app_assoc; reflexivity|].
    split; [exact Hq0|]. split; [exact Ed0|]. split; [exact Eq0|].
    split; [exact Hb|].
    intros d' Hin Hq. apply in_app_or in Hin.
    destruct Hin as [Hin | [<- | []]]; [exact (Ha d' Hin Hq)|].
    destruct (Hd Hq) as [Hle _]. rewrite <- Eq0. exact Hle.
Qed.

(** A detection that replaces the accumulator. *)
Lemma best_so_far_take seen acc d category :
  best_so_far seen acc ->
  60 < snd d -> snd acc < snd d ->
  dict_get LABEL_MAPPING (fst d) = Some category ->
  best_so_far (seen ++ [d]) (category, snd d).
Proof.
  intros Inv H60 Hh Ed. right. exists seen, d, [].
  split; [reflexivity|].
  split; [split; [exact H60 | congruence]|].
  split; [exact Ed|]. split; [reflexivity|].
  split; [|intros d' []].
  intros d' Hin Hq.
  destruct Inv
    as [[_ Hno] | (before & d0 & after & Es & _ & _ & Eq0 & Hb & Ha)].
  - exfalso. exact (Hno d' Hin Hq).
  - rewrite Eq0 in Hh. subst seen. apply in_app_or in Hin.
    destruct Hin as [Hin | [<- | Hin]].
    + specialize (Hb d' Hin Hq). lra.
    + exact Hh.
    + specialize (Ha d' Hin Hq). lra.
Qed.

Lemma scan_detection_best seen acc d :
  best_so_far seen acc -> best_so_far (seen ++ [d]) (scan_detection acc d).
Proof.
  intro Inv. destruct acc as [c h]. unfold scan_detection.
  destruct (Qgtb (snd d) 60) eqn:E60; cbn [andb].
  - apply Qgtb_gt in E60.
    destruct (Qgtb (snd d) h) eqn:Eh.
    + apply Qgtb_gt in Eh.
      destruct (dict_get LABEL_MAPPING (fst d)) as [category|] eqn:Ed.
      * exact (best_so_far_take seen (c, h) d category Inv E60 Eh Ed).
      * apply best_so_far_skip; [exact Inv|].
        intros [_ Hk]. exfalso. exact (Hk Ed).
    + apply Qgtb_le in Eh.
      apply best_so_far_skip; [exact Inv|].
      intros _. cbn [snd]. split; [exact Eh|]. intro Hz. lra.
  - apply Qgtb_le in E60.
    apply best_so_far_skip; [exact Inv|].
    intros [Hk _]. lra.
Qed.

Lemma fold_scan_detection_best ds : forall seen acc,
  best_so_far seen acc ->
  best_so_far (seen ++ ds) (fold_left scan_detection ds acc).
Proof.
  induction ds as [|d ds IH]; intros seen acc Inv.
  - rewrite app_nil_r. exact Inv.
  - cbn [fold_left].
    replace (seen ++ d :: ds) with ((seen ++ [d]) ++ ds)
      by (rewrite <- app_assoc; reflexivity).
    apply IH. apply scan_detection_best. exact Inv.
Qed.

Lemma select_best_spec results :
  best_so_far (detections results) (select_best results).
Proof.
  rewrite select_best_detections.
  apply (fold_scan_detection_best (detections results) [] ("", 0)).
  left. split; [reflexivity | intros d []].
Qed.


(** ** Classification throttle *)

Lemma classify_waste_uninitialised cfg t w s :
  picam2 s = None \/ model s = None ->
  classify_waste cfg t w s = (s, []).
Proof.
  unfold classify_waste. intros [H | H]; rewrite H;
    [|destruct (picam2 s)]; reflexivity.
Qed.

Lemma classify_waste_within_cooldown cfg t w s :
  t - last_classification_time s < CLASSIFICATION_DELAY cfg ->
  classify_waste cfg t w s = (s, []).
Proof.
  intro H. apply Qltb_lt in H. unfold classify_waste. rewrite H.
  destruct (picam2 s), (model s); reflexivity.
Qed.

(** A call that goes past both guards. *)
Lemma classify_waste_attempt cfg t w s cam mdl :
  picam2 s = Some cam -> model s = Some mdl ->
  CLASSIFICATION_DELAY cfg <= t - last_classification_time s ->
  classify_waste cfg t w s =
  match capture w with
  | CaptureRaises => (set_classification CAMERA_ERROR 0 s, [EvCapture])
  | CaptureReturns None => (s, [EvCapture])
  | CaptureReturns (Some frame) =>
      if N.eqb (frame_size frame) 0 then (s, [EvCapture])
      else
        let s1 := if camera_window_open s then s
                  else set_camera_window_open true s in
        let ev1 := if camera_window_open s then [] else [EvNamedWindow] in
        match infer w with
        | InferRaises =>
            (set_classification CAMERA_ERROR 0 s1,
             EvCapture :: ev1 ++ [EvInfer])
        | InferReturns results =>
            (set_last_classification_time t
               (set_classification (fst (classification_of results))
                                   (snd (classification_of results)) s1),
             EvCapture :: ev1 ++ [EvInfer; EvImshow])
        end
  end.
Proof.
  intros Hc Hm Hd. apply Qltb_ge in Hd.
  unfold classify_waste. rewrite Hc, Hm, Hd.
  destruct (capture w) as [|[frame|]]; try reflexivity.
  destruct (N.eqb (frame_size frame) 0); [reflexivity|].
  destruct (camera_window_open s); destruct (infer w) as [|results];
    try reflexivity;
    destruct (classification_of results); reflexivity.
Qed.

Lemma camera_env_cases w :
  (completes w = true /\ raises w = false /\ no_frame w = false) \/
  (completes w = false /\ raises w = true /\ no_frame w = false) \/
  (completes w = false /\ raises w = false /\ no_frame w = true).
Proof.
  unfold completes, raises, no_frame.
  destruct (capture w) as [|[frame|]]; auto.
  destruct (N.eqb (frame_size frame) 0), (infer w); cbn; auto.
Qed.

(** C1, as the code has it.  In a call that goes past both guards, a
    capture or an inference that raises makes the current result
    CAMERA ERROR with confidence 0 and leaves the cooldown timestamp as it
    was; a missing or empty frame leaves the whole state as it was; only a
    completed attempt stores the call time as the cooldown timestamp. *)
Theorem failed_attempt_keeps_cooldown_timestamp :
  forall (cfg : Config) (s : State) (t : Q) (w : CameraEnv) cam mdl,
    picam2 s = Some cam -> model s = Some mdl ->
    CLASSIFICATION_DELAY cfg <= t - last_classification_time s ->
    let s' := fst (classify_waste cfg t w s) in
    (raises w = true ->
       last_classification s' = CAMERA_ERROR /\
       classification_confidence s' = 0 /\
       last_classification_time s' = last_classification_time s) /\
    (no_frame w = true -> s' = s) /\
    (completes w = true -> last_classification_time s' = t).
Proof.
  intros cfg s t w cam mdl Hc Hm Hd s'. subst s'.
  rewrite (classify_waste_attempt cfg t w s cam mdl Hc Hm Hd).
  unfold raises, no_frame, completes.
  destruct (capture w) as [|[frame|]].
  - repeat split; try discriminate; reflexivity.
  - destruct (N.eqb (frame_size frame) 0); cbn [negb].
    + repeat split; try discriminate; destruct (infer w); discriminate.
    + destruct (infer w), (camera_window_open s);
        repeat split; try discriminate; reflexivity.
  - repeat split; try discriminate; reflexivity.
Qed.

Lemma failed_attempt_keeps_cooldown_timestamp_witness :
  let s' := fst (classify_waste PR4_config 100 capture_raises_env
                   ready_state) in
  last_classification s' = CAMERA_ERROR /\
  classification_confidence s' = 0 /\
  last_classification_time s' = last_classification_time ready_state.
Proof.
  refine (proj1 (failed_attempt_keeps_cooldown_timestamp
                   PR4_config ready_state 100 capture_raises_env
                   Picamera2_handle YOLO_handle eq_refl eq_refl _) eq_refl).
  unfold Qle; simpl; lia.
Defined.

(** C1 as stated fails.  With the cooldown elapsed at time 100: a missing
    frame does not make the result CAMERA ERROR, and neither a missing
    frame nor a raising capture or inference stores 100 as the cooldown
    timestamp, which a completed attempt does. *)
Lemma failed_attempt_consumes_cooldown_counterexample :
  CLASSIFICATION_DELAY PR4_config
    <= 100 - last_classification_time ready_state /\
  last_classification
    (fst (classify_waste PR4_config 100 no_frame_env ready_state))
    <> CAMERA_ERROR /\
  ~ last_classification_time
      (fst (classify_waste PR4_config 100 no_frame_env ready_state)) == 100 /\
  ~ last_classification_time
      (fst (classify_waste PR4_config 100 capture_raises_env ready_state))
    == 100 /\
  ~ last_classification_time
      (fst (classify_waste PR4_config 100 infer_raises_env ready_state))
    == 100 /\
  last_classification_time
    (fst (classify_waste PR4_config 100 paper_env ready_state)) == 100.
Proof.
  split; [unfold Qle; simpl; lia|].
  split; [cbv; discriminate|].
  repeat split; cbv; discriminate.
Qed.

Lemma classify_waste_completes cfg t w s :
  In EvImshow (snd (classify_waste cfg t w s)) ->
  completes w = true /\
  last_classification_time (fst (classify_waste cfg t w s)) = t.
Proof.
  unfold classify_waste, completes.
  destruct (picam2 s), (model s); try (intros []).
  destruct (Qltb _ _); [intros []|].
  destruct (capture w) as [|[frame|]];
    try (cbn; intros [H | []]; discriminate).
  destruct (N.eqb (frame_size frame) 0);
    [cbn; intros [H | []]; discriminate|].
  destruct (camera_window_open s), (infer w) as [|results];
    try (cbn; intuition discriminate);
    destruct (classification_of results); auto.
Qed.

Lemma classify_waste_imshow_count cfg t w s :
  (count_event EvImshow (snd (classify_waste cfg t w s)) <= 1)%nat.
Proof.
  unfold classify_waste.
  destruct (picam2 s), (model s); try (cbn; lia).
  destruct (Qltb _ _); [cbn; lia|].
  destruct (capture w) as [|[frame|]]; try (cbn; lia).
  destruct (N.eqb (frame_size frame) 0); [cbn; lia|].
  destruct (camera_window_open s), (infer w) as [|results];
    try (cbn; lia);
    destruct (classification_of results); cbn; lia.
Qed.

Lemma count_event_app e l1 l2 :
  count_event e (l1 ++ l2) = (count_event e l1 + count_event e l2)%nat.
Proof.
  unfold count_event. rewrite filter_app, length_app. reflexivity.
Qed.

Lemma count_event_zero e l :
  ~ In e l -> count_event e l = 0%nat.
Proof.
  unfold count_event. induction l as [|x l IH]; intro H; [reflexivity|].
  cbn [filter]. destruct (event_eqb e x) eqn:E.
  - exfalso. apply H. left.
    destruct e, x; try discriminate; try reflexivity.
    cbn in E. apply String.eqb_eq in E. congruence.
  - apply IH. intro Hin. apply H. right. exact Hin.
Qed.

(** C7, as the code has it.  For two calls less than [CLASSIFICATION_DELAY]
    apart: the second is a no-op whenever less than the cooldown has
    elapsed since the stored timestamp of the last completed attempt; if
    the first call completes its attempt the second captures nothing,
    infers nothing and changes nothing; so at most one of the two
    completes a capture and inference. *)
Theorem second_call_within_cooldown_of_completed_attempt :
  forall (cfg : Config) (s : State) (t1 t2 : Q) (w1 w2 : CameraEnv),
    t2 - t1 < CLASSIFICATION_DELAY cfg ->
    let r1 := classify_waste cfg t1 w1 s in
    let r2 := classify_waste cfg t2 w2 (fst r1) in
    (t2 - last_classification_time (fst r1) < CLASSIFICATION_DELAY cfg ->
       r2 = (fst r1, [])) /\
    (In EvImshow (snd r1) -> r2 = (fst r1, [])) /\
    (count_event EvImshow (snd r1 ++ snd r2) <= 1)%nat.
Proof.
  intros cfg s t1 t2 w1 w2 Hclose r1 r2.
  assert (Hnoop : t2 - last_classification_time (fst r1)
                  < CLASSIFICATION_DELAY cfg -> r2 = (fst r1, [])).
  { intro H. apply classify_waste_within_cooldown. exact H. }
  assert (Hdone : In EvImshow (snd r1) -> r2 = (fst r1, [])).
  { intro Hin. apply Hnoop.
    destruct (classify_waste_completes cfg t1 w1 s Hin) as [_ Et].
    fold r1 in Et. rewrite Et. exact Hclose. }
  split; [exact Hnoop|]. split; [exact Hdone|].
  rewrite count_event_app.
  assert (Hcases : In EvImshow (snd r1) \/ ~ In EvImshow (snd r1)).
  { clear. induction (snd r1) as [|x l IH]; [right; intros []|].
    destruct x; try (destruct IH as [IH | IH];
                     [left; right; exact IH
                     | right; intros [H | H]; [discriminate | exact (IH H)]]).
    left. left. reflexivity. }
  destruct Hcases as [Hin | Hnot].
  - rewrite (Hdone Hin). cbn [snd].
    pose proof (classify_waste_imshow_count cfg t1 w1 s) as H1.
    fold r1 in H1. cbn. lia.
  - rewrite (count_event_zero _ _ Hnot).
    pose proof (classify_waste_imshow_count cfg t2 w2 (fst r1)) as H2.
    fold r2 in H2. lia.
Qed.

Lemma second_call_within_cooldown_of_completed_attempt_witness :
  100 + (2 # 10) - 100 < CLASSIFICATION_DELAY PR4_config /\
  classify_waste PR4_config (100 + (2 # 10)) paper_env
    (fst (classify_waste PR4_config 100 paper_env ready_state))
  = (fst (classify_waste PR4_config 100 paper_env ready_state), []).
Proof.
  assert (H : 100 + (2 # 10) - 100 < CLASSIFICATION_DELAY PR4_config)
    by (unfold Qlt; simpl; lia).
  split; [exact H|].
  apply (proj1 (proj2 (second_call_within_cooldown_of_completed_attempt
                         PR4_config ready_state 100 (100 + (2 # 10))
                         paper_env paper_env H))).
  cbn. right. right. right. left. reflexivity.
Defined.

(** C7 as stated fails.  The first call at time 100 captures a frame and
    the inference raises; the second call 0.2 s later captures and infers
    again: both calls perform a capture and an inference. *)
Lemma two_calls_within_cooldown_counterexample :
  let r1 := classify_waste PR4_config 100 infer_raises_env ready_state in
  let r2 := classify_waste PR4_config (100 + (2 # 10)) infer_raises_env
              (fst r1) in
  100 + (2 # 10) - 100 < CLASSIFICATION_DELAY PR4_config /\
  count_event EvCapture (snd r1) = 1%nat /\
  count_event EvInfer (snd r1) = 1%nat /\
  count_event EvCapture (snd r2) = 1%nat /\
  count_event EvInfer (snd r2) = 1%nat.
Proof.
  cbv zeta. split; [unfold Qlt; simpl; lia|].
  repeat split; vm_compute; reflexivity.
Qed.

(** ** Camera or model missing *)

Lemma tick_sense_camera_fields cfg e s :
  let s' := fst (tick_sense cfg e s) in
  picam2 s' = picam2 s /\ model s' = model s /\
  last_classification s' = last_classification s /\
  classification_confidence s' = classification_confidence s /\
  last_classification_time s' = last_classification_time s /\
  camera_window_open s' = camera_window_open s /\
  previous_distance s' = previous_distance s.
Proof.
  unfold tick_sense.
  destruct (env_distance e) as [d|]; [|cbn; auto 10].
  destruct (object_detected cfg d), (is_dark (env_ldr e)); cbn; auto 10.
Qed.

Lemma tick_lights_camera_fields e s :
  let s' := fst (tick_lights e s) in
  picam2 s' = picam2 s /\ model s' = model s /\
  last_classification s' = last_classification s /\
  classification_confidence s' = classification_confidence s /\
  last_classification_time s' = last_classification_time s /\
  camera_window_open s' = camera_window_open s /\
  camera_active_until s' = camera_active_until s /\
  previous_distance s' = previous_distance s.
Proof.
  unfold tick_lights.
  destruct (negb _ && _); cbn; auto 10.
Qed.

Lemma tick_unfold cfg e s :
  tick cfg e s =
  let r1 := tick_sense cfg e s in
  let r2 := tick_camera cfg e (fst r1) in
  let r3 := tick_lights e (fst r2) in
  (fst r3, snd r1 ++ snd r2 ++ snd r3).
Proof.
  unfold tick.
  destruct (tick_sense cfg e s) as [s1 ev1]. cbn [fst snd].
  destruct (tick_camera cfg e s1) as [s2 ev2]. cbn [fst snd].
  destruct (tick_lights e s2) as [s3 ev3]. reflexivity.
Qed.

Lemma run_cons cfg e es s :
  run cfg (e :: es) s =
  (fst (run cfg es (fst (tick cfg e s))),
   snd (tick cfg e s) :: snd (run cfg es (fst (tick cfg e s)))).
Proof.
  cbn [run]. destruct (tick cfg e s) as [s1 ev]. cbn [fst snd].
  destruct (run cfg es s1) as [s2 evs]. reflexivity.
Qed.

(** The camera step when the camera or the model is missing. *)
Lemma tick_camera_uninitialised cfg e s :
  picam2 s = None \/ model s = None ->
  last_classification s = WAITING ->
  let s' := fst (tick_camera cfg e s) in
  picam2 s' = picam2 s /\ model s' = model s /\
  last_classification s' = WAITING.
Proof.
  intros Hnone Hw. unfold tick_camera.
  rewrite (classify_waste_uninitialised cfg _ _ s Hnone).
  destruct (Qltb _ _ && _); [cbn; auto|].
  destruct (Qgeb _ _); [|cbn; auto].
  rewrite Hw. cbn [String.eqb negb].
  replace (String.eqb WAITING WAITING) with true by reflexivity.
  cbn [negb]. destruct (camera_window_open s); cbn; auto.
Qed.

Lemma tick_uninitialised cfg e s :
  picam2 s = None \/ model s = None ->
  last_classification s = WAITING ->
  let s' := fst (tick cfg e s) in
  (picam2 s' = None \/ model s' = None) /\ last_classification s' = WAITING.
Proof.
  intros Hnone Hw. rewrite tick_unfold. cbn zeta. cbn [fst].
  destruct (tick_sense_camera_fields cfg e s)
    as (P1 & M1 & L1 & _).
  destruct (tick_camera_uninitialised cfg e (fst (tick_sense cfg e s)))
    as (P2 & M2 & L2).
  { rewrite P1, M1. exact Hnone. }
  { rewrite L1. exact Hw. }
  destruct (tick_lights_camera_fields e
              (fst (tick_camera cfg e (fst (tick_sense cfg e s)))))
    as (P3 & M3 & L3 & _).
  rewrite P3, M3, L3, P2, M2, P1, M1. split; [exact Hnone | exact L2].
Qed.

(** C9.  When the camera or the model is missing, [classify_waste] returns
    at once: no device call, no field changed.  From a state showing
    WAITING, any number of loop iterations later the result still is
    WAITING, hence never CAMERA ERROR. *)
Theorem uninitialised_camera_stays_waiting :
  forall (cfg : Config) (s : State),
    picam2 s = None \/ model s = None ->
    last_classification s = WAITING ->
    (forall t w, classify_waste cfg t w s = (s, [])) /\
    forall es : list TickEnv,
      let s' := fst (run cfg es s) in
      last_classification s' = WAITING /\
      last_classification s' <> CAMERA_ERROR /\
      (picam2 s' = None \/ model s' = None).
Proof.
  intros cfg s Hnone Hw. split.
  - intros t w. apply classify_waste_uninitialised. exact Hnone.
  - intro es. revert s Hnone Hw.
    induction es as [|e es IH]; intros s Hnone Hw s'; subst s'.
    + cbn [run fst]. rewrite Hw.
      split; [reflexivity|]. split; [discriminate | exact Hnone].
    + rewrite run_cons. cbn [fst].
      destruct (tick_uninitialised cfg e s Hnone Hw) as [Hn' Hw'].
      exact (IH _ Hn' Hw').
Qed.

Lemma uninitialised_camera_stays_waiting_witness :
  (picam2 failed_start = None \/ model failed_start = None) /\
  last_classification failed_start = WAITING /\
  classify_waste PR4_config 100 paper_env failed_start = (failed_start, []) /\
  last_classification (fst (run PR4_config (cycle paper_env) failed_start))
  = WAITING.
Proof.
  split; [left; reflexivity|]. split; [reflexivity|].
  destruct (uninitialised_camera_stays_waiting
              PR4_config failed_start (or_introl eq_refl) eq_refl)
    as [Hcall Hrun].
  split; [exact (Hcall 100 paper_env)|].
  exact (proj1 (Hrun (cycle paper_env))).
Defined.

(** ** The stored previous distance and the loop *)

Lemma tick_sense_previous_distance cfg e s d :
  tick_sense cfg e (set_previous_distance d s) =
  (set_previous_distance d (fst (tick_sense cfg e s)),
   snd (tick_sense cfg e s)).
Proof.
  unfold tick_sense, turn_on_lights.
  destruct (env_distance e) as [x|]; [|reflexivity].
  destruct (object_detected cfg x), (is_dark (env_ldr e)); reflexivity.
Qed.

Lemma classify_waste_previous_distance cfg t w s d :
  classify_waste cfg t w (set_previous_distance d s) =
  (set_previous_distance d (fst (classify_waste cfg t w s)),
   snd (classify_waste cfg t w s)).
Proof.
  unfold classify_waste. state_simpl.
  destruct (picam2 s), (model s); try reflexivity.
  destruct (Qltb _ _); [reflexivity|].
  destruct (capture w) as [|[frame|]]; try reflexivity.
  destruct (N.eqb (frame_size frame) 0); [reflexivity|].
  destruct (camera_window_open s), (infer w) as [|results];
    try reflexivity;
    destruct (classification_of results); reflexivity.
Qed.

Lemma tick_camera_previous_distance cfg e s d :
  tick_camera cfg e (set_previous_distance d s) =
  (set_previous_distance d (fst (tick_camera cfg e s)),
   snd (tick_camera cfg e s)).
Proof.
  unfold tick_camera. state_simpl.
  rewrite classify_waste_previous_distance.
  destruct (Qltb _ _ && _); [reflexivity|].
  destruct (Qgeb _ _); [|reflexivity].
  destruct (negb _); state_simpl;
    destruct (camera_window_open s); reflexivity.
Qed.

Lemma tick_lights_previous_distance e s d :
  tick_lights e (set_previous_distance d s) =
  (set_previous_distance d (fst (tick_lights e s)), snd (tick_lights e s)).
Proof.
  unfold tick_lights, should_lights_be_on. state_simpl.
  destruct (negb _ && _); reflexivity.
Qed.

Lemma tick_previous_distance cfg e s d :
  tick cfg e (set_previous_distance d s) =
  (set_previous_distance d (fst (tick cfg e s)), snd (tick cfg e s)).
Proof.
  rewrite !tick_unfold. cbn zeta.
  rewrite tick_sense_previous_distance. cbn [fst snd].
  rewrite tick_camera_previous_distance. cbn [fst snd].
  rewrite tick_lights_previous_distance. reflexivity.
Qed.

Lemma tick_keeps_previous_distance cfg e s :
  previous_distance (fst (tick cfg e s)) = previous_distance s.
Proof.
  rewrite tick_unfold. cbn zeta. cbn [fst].
  destruct (tick_lights_camera_fields e
              (fst (tick_camera cfg e (fst (tick_sense cfg e s)))))
    as (_ & _ & _ & _ & _ & _ & _ & E3).
  destruct (tick_sense_camera_fields cfg e s)
    as (_ & _ & _ & _ & _ & _ & E1).
  rewrite E3, <- E1.
  generalize (fst (tick_sense cfg e s)). intro s1.
  unfold tick_camera, classify_waste.
  destruct (Qltb _ _ && _).
  - destruct (picam2 s1), (model s1); try reflexivity.
    destruct (Qltb _ _); [reflexivity|].
    destruct (capture (env_camera e)) as [|[frame|]]; try reflexivity.
    destruct (N.eqb (frame_size frame) 0); [reflexivity|].
    destruct (camera_window_open s1), (infer (env_camera e)) as [|results];
      try reflexivity;
      destruct (classification_of results); reflexivity.
  - destruct (Qgeb _ _); [|reflexivity].
    destruct (negb _); state_simpl;
      destruct (camera_window_open s1); reflexivity.
Qed.

(** C10.  Two runs of one loop iteration that differ only in the stored
    previous distance take the same decisions: the same camera expiry, the
    same light expiry, the same device calls, and final states that again
    differ only in that field.  The iteration never stores a sample in it,
    which [detect_motion] does on every call. *)
Theorem tick_ignores_previous_distance :
  forall (cfg : Config) (e : TickEnv) (s : State) (d1 d2 : option Q),
    let r1 := tick cfg e (set_previous_distance d1 s) in
    let r2 := tick cfg e (set_previous_distance d2 s) in
    camera_active_until (fst r1) = camera_active_until (fst r2) /\
    lights_on_until (fst r1) = lights_on_until (fst r2) /\
    snd r1 = snd r2 /\
    set_previous_distance None (fst r1) = set_previous_distance None (fst r2) /\
    previous_distance (fst r1) = d1 /\
    previous_distance (fst r2) = d2 /\
    (forall x, previous_distance (snd (detect_motion x s)) = Some x).
Proof.
  intros cfg e s d1 d2 r1 r2. subst r1 r2.
  rewrite !tick_previous_distance. cbn [fst snd].
  repeat split.
  intro x. apply detect_motion_previous.
Qed.

(** ** Arming the two windows *)

Lemma tick_camera_keeps_windows cfg e s :
  let s' := fst (tick_camera cfg e s) in
  lights_on_until s' = lights_on_until s /\
  camera_active_until s' = camera_active_until s /\
  pixels s' = pixels s.
Proof.
  unfold tick_camera, classify_waste.
  destruct (Qltb _ _ && _).
  - destruct (picam2 s), (model s); try (cbn; auto).
    destruct (Qltb _ _); [cbn; auto|].
    destruct (capture (env_camera e)) as [|[frame|]]; try (cbn; auto).
    destruct (N.eqb (frame_size frame) 0); [cbn; auto|].
    destruct (camera_window_open s), (infer (env_camera e)) as [|results];
      try (cbn; auto);
      destruct (classification_of results); cbn; auto.
  - destruct (Qgeb _ _); [|cbn; auto].
    destruct (negb _); state_simpl;
      destruct (camera_window_open s); cbn; auto.
Qed.

Lemma tick_sense_windows cfg e s :
  camera_active_until (fst (tick_sense cfg e s))
  = camera_step cfg e (camera_active_until s) /\
  lights_on_until (fst (tick_sense cfg e s))
  = light_arm cfg e (lights_on_until s).
Proof.
  unfold tick_sense, camera_step, light_arm.
  destruct (env_distance e) as [d|]; [|split; reflexivity].
  destruct (object_detected cfg d), (is_dark (env_ldr e));
    split; reflexivity.
Qed.

Lemma tick_camera_active_until cfg e s :
  camera_active_until (fst (tick cfg e s))
  = camera_step cfg e (camera_active_until s).
Proof.
  rewrite tick_unfold. cbn zeta. cbn [fst].
  destruct (tick_lights_camera_fields e
              (fst (tick_camera cfg e (fst (tick_sense cfg e s)))))
    as (_ & _ & _ & _ & _ & _ & E3 & _).
  destruct (tick_camera_keeps_windows cfg e (fst (tick_sense cfg e s)))
    as (_ & E2 & _).
  rewrite E3, E2. apply tick_sense_windows.
Qed.

Lemma tick_lights_on_until cfg e s :
  lights_on_until (fst (tick cfg e s))
  = light_step cfg e (lights_on_until s).
Proof.
  rewrite tick_unfold. cbn zeta. cbn [fst].
  unfold light_step.
  destruct (tick_sense_windows cfg e s) as [_ E1]. rewrite <- E1.
  destruct (tick_camera_keeps_windows cfg e (fst (tick_sense cfg e s)))
    as (E2 & _). rewrite <- E2.
  generalize (fst (tick_camera cfg e (fst (tick_sense cfg e s)))).
  intro s2. unfold tick_lights, should_lights_be_on.
  destruct (negb _ && _); reflexivity.
Qed.

Lemma run_lights_on_until cfg es : forall s,
  lights_on_until (fst (run cfg es s))
  = fold_left (fun expiry e => light_step cfg e expiry) es
              (lights_on_until s).
Proof.
  induction es as [|e es IH]; intro s; [reflexivity|].
  rewrite run_cons. cbn [fst fold_left].
  rewrite IH, tick_lights_on_until. reflexivity.
Qed.

(** C6.  With a reading, [object_detected] is [distance <= 50]; a detected
    object arms the camera window to the clock read plus [CAMERA_TIMEOUT]
    whatever the light, and arms the light window to the clock read plus
    [LIGHT_ON_DURATION] exactly when the environment is dark as well;
    otherwise the expiries stay.  For readings 100, 100, 40, 100 at times
    0, 1, 2, 3 in the dark with a light duration of 5 s: the light window
    is not armed by the first two iterations, the third arms it to
    2 + 5, and after the fourth it is on at every time in [2, 7) and off
    from 7 on, at 8 in particular. *)
Theorem object_detection_arms_windows :
  (forall distance, object_detected PR4_config distance = true
                    <-> distance <= 50) /\
  (forall cfg e s distance,
      env_distance e = Some distance ->
      camera_active_until (fst (tick_sense cfg e s))
      = (if object_detected cfg distance
         then env_t_camera e + CAMERA_TIMEOUT cfg
         else camera_active_until s) /\
      camera_active_until (fst (tick cfg e s))
      = camera_active_until (fst (tick_sense cfg e s)) /\
      lights_on_until (fst (tick_sense cfg e s))
      = (if object_detected cfg distance && is_dark (env_ldr e)
         then env_t_lights e + LIGHT_ON_DURATION cfg
         else lights_on_until s)) /\
  object_detected scenario_config 100 = false /\
  object_detected scenario_config 40 = true /\
  (forall cam mdl w0 w1 w2 w3,
      let s0 := init_state cam mdl in
      let s2 := fst (run scenario_config
                       (firstn 2 (scenario w0 w1 w2 w3)) s0) in
      let s3 := fst (run scenario_config
                       (firstn 3 (scenario w0 w1 w2 w3)) s0) in
      let s4 := fst (run scenario_config (scenario w0 w1 w2 w3) s0) in
      lights_on_until s2 = 0 /\
      lights_on_until s3 = 7 /\
      lights_on_until s4 = 7 /\
      (forall now, should_lights_be_on now s2 = true -> now < 0) /\
      (forall now, should_lights_be_on now s4 = true <-> now < 7) /\
      should_lights_be_on 2 s3 = true /\
      should_lights_be_on 8 s4 = false).
Proof.
  split; [|split; [|split; [reflexivity | split; [reflexivity|]]]].
  - intro distance. apply Qle_bool_iff.
  - intros cfg e s distance Hd.
    destruct (tick_sense_windows cfg e s) as [Ec El].
    rewrite tick_camera_active_until, Ec, El.
    unfold camera_step, light_arm. rewrite Hd. auto.
  - intros cam mdl w0 w1 w2 w3 s0 s2 s3 s4.
    assert (E2 : lights_on_until s2 = 0)
      by (unfold s2; rewrite run_lights_on_until; reflexivity).
    assert (E3 : lights_on_until s3 = 7)
      by (unfold s3; rewrite run_lights_on_until; reflexivity).
    assert (E4 : lights_on_until s4 = 7)
      by (unfold s4; rewrite run_lights_on_until; reflexivity).
    unfold should_lights_be_on. rewrite E2, E3, E4.
    split; [reflexivity|]. split; [reflexivity|]. split; [reflexivity|].
    split; [intros now H; apply Qltb_lt in H; exact H|].
    split; [intro now; apply Qltb_lt|].
    split; reflexivity.
Qed.

(** ** Leaving the camera-active window *)
















(** ** Range sensor: termination and the deadline *)

Section RangeSensorProperties.
Variable clock : nat -> Q.
Variable echo : nat -> option bool.
Variable step_min : Q.

Hypothesis step_min_pos : 0 < step_min.
Hypothesis clock_advances : forall k, clock k + step_min <= clock (S k).

Let timeout := deadline clock.



(** *** More fuel does not change a result *)




(** *** Enough fuel gives a result *)

Variable past : nat.
Hypothesis past_deadline : forall n, (past <= n)%nat -> timeout < clock n.


End RangeSensorProperties.

Section RangeSensorBounds.
Variable clock : nat -> Q.
Variable echo : nat -> option bool.
Variable step_max : Q.

Hypothesis step_max_nonneg : 0 <= step_max.
Hypothesis clock_granularity : forall k, clock (S k) <= clock k + step_max.

Let timeout := deadline clock.





End RangeSensorBounds.

(** A pulse: the echo line is high at its reads 1 and 2 only, the clock
    gains 1 ms per read; the pulse is measured from read 1 to read 3. *)
Example measure_distance_pulse :
  measure_distance (fun k => inject_Z (Z.of_nat k) * (1 # 1000))
                   (fun k => Some (Nat.eqb k 1 || Nat.eqb k 2)) 10
  = Returned (Some (((3 # 1000) - (1 # 1000)) * 34300 / 2)) 3.
Proof. vm_compute. reflexivity. Qed.






(** * Further properties of the station *)

(** ** The current result and its confidence *)

Lemma LABEL_MAPPING_not_sentinel label category :
  dict_get LABEL_MAPPING label = Some category ->
  category <> WAITING /\ category <> UNIDENTIFIED /\ category <> CAMERA_ERROR.
Proof.
  unfold LABEL_MAPPING. cbn [dict_get].
  repeat match goal with
         | |- context [String.eqb ?a ?b] => destruct (String.eqb a b)
         end;
    intro H; inversion H; repeat split; discriminate.
Qed.

Lemma classification_of_consistent results :
  (fst (classification_of results) = UNIDENTIFIED /\
   snd (classification_of results) = 0)
  \/ (60 < snd (classification_of results) /\
      exists label, dict_get LABEL_MAPPING label
                    = Some (fst (classification_of results))).
Proof.
  pose proof (select_best_spec results) as Inv.
  unfold classification_of.
  destruct (select_best results) as [c h].
  destruct Inv
    as [[Eacc _] | (before & d & after & _ & [H60 _] & Ed & Eq & _)].
  - injection Eacc as -> ->. left. split; reflexivity.
  - cbn [fst snd] in Ed, Eq. rewrite (LABEL_MAPPING_truthy _ _ Ed).
    right. cbn [fst snd]. subst h. split; [exact H60|].
    exists (fst d). exact Ed.
Qed.

Lemma classify_waste_consistent cfg t w s :
  result_consistent s ->
  result_consistent (fst (classify_waste cfg t w s)).
Proof.
  intro Inv. unfold classify_waste.
  destruct (picam2 s), (model s); try exact Inv.
  destruct (Qltb _ _); [exact Inv|].
  destruct (capture w) as [|[frame|]]; try exact Inv.
  - left. cbn. auto.
  - destruct (N.eqb (frame_size frame) 0); [exact Inv|].
    destruct (camera_window_open s), (infer w) as [|results];
      try (left; cbn; auto; fail);
      pose proof (classification_of_consistent results) as Hc;
      destruct (classification_of results) as [c q]; cbn [fst snd] in *;
      (destruct Hc as [[-> ->] | [H60 Hex]];
       [left; cbn; auto | right; cbn; split; assumption]).
Qed.

Lemma tick_camera_consistent cfg e s :
  result_consistent s -> result_consistent (fst (tick_camera cfg e s)).
Proof.
  intro Inv. unfold tick_camera.
  destruct (Qltb _ _ && _); [apply classify_waste_consistent; exact Inv|].
  destruct (Qgeb _ _); [|exact Inv].
  destruct (negb _); state_simpl;
    destruct (camera_window_open s); cbn [fst];
    try exact Inv; left; cbn; auto.
Qed.

Lemma result_consistent_fields s s' :
  last_classification s' = last_classification s ->
  classification_confidence s' = classification_confidence s ->
  result_consistent s -> result_consistent s'.
Proof. unfold result_consistent. intros -> ->. exact (fun H => H). Qed.

Lemma tick_consistent cfg e s :
  result_consistent s -> result_consistent (fst (tick cfg e s)).
Proof.
  intro Inv. rewrite tick_unfold. cbn zeta. cbn [fst].
  destruct (tick_sense_camera_fields cfg e s) as (_ & _ & L1 & C1 & _).
  destruct (tick_lights_camera_fields e
              (fst (tick_camera cfg e (fst (tick_sense cfg e s)))))
    as (_ & _ & L3 & C3 & _).
  apply (result_consistent_fields _ _ L3 C3).
  apply tick_camera_consistent.
  apply (result_consistent_fields _ _ L1 C1). exact Inv.
Qed.

(** X1.  Along the loop the current result stays well formed: it is one
    of WAITING..., UNIDENTIFIED, CAMERA ERROR with confidence 0, or a
    display category of the label table with a confidence above 60.  So
    the confidence is 0 exactly for the three sentinels. *)
Theorem result_stays_consistent :
  forall (cfg : Config) (es : list TickEnv) (s : State),
    result_consistent s ->
    let s' := fst (run cfg es s) in
    result_consistent s' /\
    (classification_confidence s' = 0 <->
     last_classification s' = WAITING \/
     last_classification s' = UNIDENTIFIED \/
     last_classification s' = CAMERA_ERROR).
Proof.
  intros cfg es s Inv s'.
  assert (Inv' : result_consistent s').
  { subst s'. revert s Inv. induction es as [|e es IH]; intros s Inv.
    - exact Inv.
    - rewrite run_cons. cbn [fst]. apply IH. apply tick_consistent.
      exact Inv. }
  split; [exact Inv'|].
  destruct Inv' as [[Hc Hl] | [H60 [label Hl]]].
  - split; [intros _; exact Hl | intros _; exact Hc].
  - destruct (LABEL_MAPPING_not_sentinel _ _ Hl) as (N1 & N2 & N3).
    split.
    + intro Hc. rewrite Hc in H60. exfalso. revert H60. apply Qle_not_lt.
      discriminate.
    + intros [H | [H | H]]; contradiction.
Qed.

Lemma result_stays_consistent_witness :
  result_consistent ready_state /\
  result_consistent (fst (run PR4_config (cycle paper_env) ready_state)).
Proof.
  assert (H : result_consistent ready_state)
    by (left; split; [reflexivity | left; reflexivity]).
  split; [exact H|].
  exact (proj1 (result_stays_consistent PR4_config (cycle paper_env)
                  ready_state H)).
Defined.

Lemma run_consistent cfg es : forall s,
  result_consistent s -> result_consistent (fst (run cfg es s)).
Proof.
  induction es as [|e es IH]; intros s Inv; [exact Inv|].
  rewrite run_cons. cbn [fst]. apply IH. apply tick_consistent. exact Inv.
Qed.

(** ** OLED display *)

Lemma draw_centered_text_some font text y_offset w h :
  text_size font text = Some (w, h) ->
  exists op,
    draw_centered_text font text y_offset = Some op /\
    shown op = Text text /\ centred op w h y_offset.
Proof.
  intro Hs. unfold draw_centered_text. rewrite Hs.
  eexists. split; [reflexivity|]. split; [reflexivity|].
  unfold centred, OLED_WIDTH, OLED_HEIGHT. cbn [at_x at_y].
  split.
  - pose proof (Z.div_mod (128 - w) 2 ltac:(lia)) as E.
    pose proof (Z.mod_pos_bound (128 - w) 2 ltac:(lia)) as B. lia.
  - pose proof (Z.div_mod (64 - h) 2 ltac:(lia)) as E.
    pose proof (Z.mod_pos_bound (64 - h) 2 ltac:(lia)) as B. lia.
Qed.

(** X2.  [draw_centered_text] measures the text with [getbbox] and falls
    back to [getsize] only when [getbbox] raises; when neither works
    nothing is drawn.  Otherwise the text is drawn with its left and right
    margins differing by at most one pixel, and likewise vertically
    around the line shifted by [y_offset]; a text wider than the display
    starts left of it. *)
Theorem draw_centered_text_centres :
  forall (font : Font) (text : string) (y_offset : Z),
    (forall x0 y0 x1 y1,
        getbbox font text = Some (x0, y0, x1, y1) ->
        text_size font text = Some (x1 - x0, y1 - y0)%Z) /\
    (getbbox font text = None -> text_size font text = getsize font text) /\
    (text_size font text = None ->
     draw_centered_text font text y_offset = None) /\
    (forall w h,
        text_size font text = Some (w, h) ->
        exists op,
          draw_centered_text font text y_offset = Some op /\
          shown op = Text text /\
          centred op w h y_offset /\
          ((OLED_WIDTH < w)%Z -> (at_x op < 0)%Z)).
Proof.
  intros font text y_offset.
  split; [|split; [|split]].
  - intros x0 y0 x1 y1 H. unfold text_size. rewrite H. reflexivity.
  - intro H. unfold text_size. rewrite H. reflexivity.
  - intro H. unfold draw_centered_text. rewrite H. reflexivity.
  - intros w h Hs.
    destruct (draw_centered_text_some font text y_offset w h Hs)
      as (op & Hd & Ht & Hc).
    exists op. split; [exact Hd|]. split; [exact Ht|]. split; [exact Hc|].
    destruct Hc as [Hx _]. unfold OLED_WIDTH in *. lia.
Qed.

(** X3.  On every state the loop can reach from a well-formed result, the
    image [update_display] sends has a confidence line only together with
    the line "Type: <category>", for a category that is none of the
    sentinels and a confidence above 60; a sentinel is drawn alone,
    centred, 5 pixels below the middle line, and with it the display is
    left as it was exactly when the text cannot be measured. *)
Theorem display_shows_confidence_only_for_categories :
  forall (cfg : Config) (es : list TickEnv) (s0 : State)
         (font : Font) (t_status t_led : Q),
    result_consistent s0 ->
    let s := fst (run cfg es s0) in
    (forall ops op c,
        update_display font t_status t_led s = Some ops ->
        In op ops -> shown op = ConfText c ->
        60 < c /\ c = classification_confidence s /\
        In {| at_x := 5; at_y := 18;
              shown := Text ("Type: " ++ last_classification s) |} ops /\
        last_classification s <> WAITING /\
        last_classification s <> UNIDENTIFIED /\
        last_classification s <> CAMERA_ERROR) /\
    (classification_confidence s = 0 ->
     update_display font t_status t_led s = None
     <-> text_size font (last_classification s) = None) /\
    (forall ops w h,
        classification_confidence s = 0 ->
        update_display font t_status t_led s = Some ops ->
        text_size font (last_classification s) = Some (w, h) ->
        exists op,
          In op ops /\ shown op = Text (last_classification s) /\
          centred op w h 5).
Proof.
  intros cfg es s0 font t_status t_led Inv0 s.
  assert (Inv : result_consistent s) by (apply run_consistent; exact Inv0).
  clearbody s.
  assert (Hzero : classification_confidence s = 0 ->
                  Qgtb (classification_confidence s) 0 = false)
    by (intros ->; reflexivity).
  split; [|split].
  - intros ops op c Hu Hin Hshown. unfold update_display in Hu.
    destruct (Qgtb (classification_confidence s) 0) eqn:Epos.
    + injection Hu as <-.
      destruct Inv as [[Hc _] | [H60 [label Hl]]].
      * discriminate (Hzero Hc).
      * destruct (LABEL_MAPPING_not_sentinel _ _ Hl) as (N1 & N2 & N3).
        assert (Ec : c = classification_confidence s).
        { cbn [app] in Hin.
          destruct Hin as [<- | [<- | [<- | [<- | [<- | []]]]]];
            cbn [shown] in Hshown; try discriminate.
          - injection Hshown as <-. reflexivity.
          - destruct (Qltb _ _); discriminate.
          - destruct (should_lights_be_on _ _); discriminate. }
        subst c. split; [exact H60|]. split; [reflexivity|].
        split; [right; left; reflexivity | auto].
    + destruct (draw_centered_text font (last_classification s) 5)
        as [op0|] eqn:Ed; [|discriminate].
      injection Hu as <-. exfalso.
      unfold draw_centered_text in Ed.
      destruct (text_size font (last_classification s)) as [[w h]|];
        [|discriminate].
      injection Ed as <-.
      destruct Hin as [<- | [<- | [<- | [<- | []]]]];
        cbn [shown] in Hshown; try discriminate;
        [destruct (Qltb _ _) | destruct (should_lights_be_on _ _)];
        discriminate.
  - intro Hc. unfold update_display. rewrite (Hzero Hc).
    unfold draw_centered_text.
    destruct (text_size font (last_classification s)) as [[w h]|].
    + split; discriminate.
    + split; reflexivity.
  - intros ops w h Hc Hu Hs. unfold update_display in Hu.
    rewrite (Hzero Hc) in Hu.
    destruct (draw_centered_text_some font (last_classification s) 5 w h Hs)
      as (op & Hd & Ht & Hcen).
    rewrite Hd in Hu. injection Hu as <-.
    exists op. split; [right; left; reflexivity|]. split; assumption.
Qed.

Lemma display_shows_confidence_only_for_categories_witness :
  result_consistent ready_state /\
  (classification_confidence (fst (run PR4_config [] ready_state)) = 0 ->
   update_display font_6x11 100 100 (fst (run PR4_config [] ready_state))
   = None
   <-> text_size font_6x11
         (last_classification (fst (run PR4_config [] ready_state))) = None).
Proof.
  assert (H : result_consistent ready_state)
    by (left; split; [reflexivity | left; reflexivity]).
  split; [exact H|].
  exact (proj1 (proj2 (display_shows_confidence_only_for_categories
                         PR4_config [] ready_state font_6x11 100 100 H))).
Defined.

(** ** Shutdown *)

Lemma map_zero_dark (l : list Z) : Forall (eq 0%Z) (map (fun _ => 0%Z) l).
Proof. induction l; constructor; auto. Qed.

(** X4.  Whether or not the OLED fill, the camera stop or the camera
    close raise during [cleanup], and whatever the loop did before the
    interrupt: the loop flag is cleared, every pixel of the strip buffer
    is off, the OLED clear and the strip are attempted, the GPIO
    chip close is attempted once and last, the preview windows are
    destroyed exactly when the flag says one is open, and the camera is
    stopped exactly when there is one.  The camera handle is dropped
    exactly when there was none or both its stop and its close returned;
    once dropped, a second [cleanup] leaves the camera alone. *)
Theorem cleanup_attempts_every_release :
  forall (c : CleanupEnv) (s : State),
    let s' := fst (cleanup c s) in
    let rs := snd (cleanup c s) in
    is_running s' = false /\
    Forall (eq 0%Z) (pixels s') /\
    In OledFill rs /\ In StripOff rs /\
    (exists before, rs = before ++ [GpioChipClose]
                    /\ ~ In GpioChipClose before) /\
    (In DestroyAllWindows rs <-> camera_window_open s = true) /\
    (In CameraStop rs <-> picam2 s <> None) /\
    (picam2 s' = None <->
     picam2 s = None \/
     (camera_stop_ok c = true /\ camera_close_ok c = true)) /\
    (picam2 s' = None ->
     forall c2, ~ In CameraStop (snd (cleanup c2 s'))) /\
    (forall cfg es,
        is_running (fst (run_system cfg es c s)) = false /\
        Forall (eq 0%Z) (pixels (fst (run_system cfg es c s)))).
Proof.
  assert (Hmain : forall c s,
             is_running (fst (cleanup c s)) = false /\
             Forall (eq 0%Z) (pixels (fst (cleanup c s)))).
  { intros c s. unfold cleanup, turn_off_lights, set_is_running. state_simpl.
    destruct (picam2 s), (camera_stop_ok c), (camera_close_ok c);
      cbn; split; try reflexivity; apply map_zero_dark. }
  assert (Hstop : forall c s,
             picam2 s = None -> ~ In CameraStop (snd (cleanup c s))).
  { intros c s Hp. unfold cleanup, turn_off_lights, set_is_running. state_simpl.
    rewrite Hp. cbn [snd].
    destruct (oled_fill_ok c), (camera_window_open s); cbn;
      intuition discriminate. }
  intros c s s' rs.
  split; [apply Hmain|]. split; [apply Hmain|].
  split; [|split; [|split; [|split; [|split; [|split; [|split]]]]]].
  - subst rs. unfold cleanup, turn_off_lights, set_is_running. state_simpl.
    destruct (picam2 s), (camera_stop_ok c), (camera_close_ok c),
      (oled_fill_ok c); cbn; auto.
  - subst rs. unfold cleanup, turn_off_lights, set_is_running. state_simpl.
    destruct (picam2 s), (camera_stop_ok c), (camera_close_ok c),
      (oled_fill_ok c), (camera_window_open s); cbn; auto 10.
  - subst rs. unfold cleanup, turn_off_lights, set_is_running. state_simpl.
    destruct (picam2 s), (camera_stop_ok c), (camera_close_ok c);
      cbn [snd]; rewrite ?app_assoc;
      (eexists; split; [reflexivity|]);
      destruct (oled_fill_ok c), (camera_window_open s); cbn;
      intuition discriminate.
  - subst rs. unfold cleanup, turn_off_lights, set_is_running. state_simpl.
    destruct (picam2 s), (camera_stop_ok c), (camera_close_ok c),
      (oled_fill_ok c), (camera_window_open s); cbn;
      intuition discriminate.
  - subst rs. unfold cleanup, turn_off_lights, set_is_running. state_simpl.
    destruct (picam2 s), (camera_stop_ok c), (camera_close_ok c),
      (oled_fill_ok c), (camera_window_open s); cbn;
      intuition discriminate.
  - subst s'. unfold cleanup, turn_off_lights, set_is_running. state_simpl.
    destruct (picam2 s), (camera_stop_ok c), (camera_close_ok c);
      cbn; intuition discriminate.
  - intros Hp c2. apply Hstop. exact Hp.
  - intros cfg es. unfold run_system. apply Hmain.
Qed.

(** ** The LED strip and the light window *)

Lemma strip_consistent_length s :
  strip_consistent s -> List.length (pixels s) = NUM_PIXELS.
Proof. intros [[_ ->] | [_ ->]]; apply repeat_length. Qed.

Lemma strip_consistent_fields s s' :
  lights_on_until s' = lights_on_until s ->
  pixels s' = pixels s ->
  strip_consistent s -> strip_consistent s'.
Proof. unfold strip_consistent. intros -> ->. exact (fun H => H). Qed.

Lemma tick_sense_strip cfg e s :
  0 < LIGHT_ON_DURATION cfg -> 0 <= env_t_lights e ->
  strip_consistent s -> strip_consistent (fst (tick_sense cfg e s)).
Proof.
  intros HD Ht Inv. unfold tick_sense.
  destruct (env_distance e) as [d|]; [|exact Inv].
  destruct (object_detected cfg d); cbn [andb]; [|exact Inv].
  destruct (is_dark (env_ldr e)).
  - right. split.
    + cbn. lra.
    + apply turn_on_lights_pixels. cbn [pixels set_camera_active_until].
      apply strip_consistent_length. exact Inv.
  - apply (strip_consistent_fields s); [reflexivity | reflexivity | exact Inv].
Qed.

Lemma tick_lights_strip e s :
  0 <= env_t_manage e ->
  strip_consistent s ->
  let s' := fst (tick_lights e s) in
  strip_consistent s' /\
  (should_lights_be_on (env_t_manage e) s' = true ->
   pixels s' = repeat LED_COLOR NUM_PIXELS) /\
  (should_lights_be_on (env_t_manage e) s' = false ->
   pixels s' = repeat 0%Z NUM_PIXELS /\ lights_on_until s' = 0).
Proof.
  intros Ht Inv. unfold tick_lights.
  destruct (negb (should_lights_be_on (env_t_manage e) s)) eqn:Eoff;
    cbn [andb].
  - destruct (Qgtb (lights_on_until s) 0) eqn:Epos.
    + assert (Hdark : pixels (fst (let '(s1, ev1) := turn_off_lights s in
                                   (set_lights_on_until 0 s1,
                                    ev1 ++ [EvPrint "Lights OFF"])))
                      = repeat 0%Z NUM_PIXELS).
      { cbn. pose proof (strip_consistent_length s Inv) as Hlen.
        revert Hlen. generalize (pixels s). intro l. unfold NUM_PIXELS.
        intro Hlen.
        do 12 (destruct l as [|? l]; [discriminate Hlen|]).
        destruct l; [reflexivity | discriminate Hlen]. }
      cbn zeta. split; [left; split; [reflexivity | exact Hdark]|].
      split; [|intros _; split; [exact Hdark | reflexivity]].
      unfold should_lights_be_on. cbn. intro H. apply Qltb_lt in H. lra.
    + cbn [fst]. apply Qgtb_le in Epos. apply negb_true_iff in Eoff.
      split; [exact Inv|]. rewrite Eoff.
      split; [discriminate|]. intros _.
      destruct Inv as [[E0 Hp] | [Hpos _]]; [split; assumption | lra].
  - cbn [fst]. apply negb_false_iff in Eoff.
    split; [exact Inv|]. rewrite Eoff.
    split; [|discriminate]. intros _.
    destruct Inv as [[E0 _] | [_ Hp]]; [|exact Hp].
    unfold should_lights_be_on in Eoff. rewrite E0 in Eoff.
    apply Qltb_lt in Eoff. lra.
Qed.

Lemma tick_strip cfg e s :
  0 < LIGHT_ON_DURATION cfg -> light_clock_nonneg e ->
  strip_consistent s ->
  let s' := fst (tick cfg e s) in
  strip_consistent s' /\
  (should_lights_be_on (env_t_manage e) s' = true ->
   pixels s' = repeat LED_COLOR NUM_PIXELS) /\
  (should_lights_be_on (env_t_manage e) s' = false ->
   pixels s' = repeat 0%Z NUM_PIXELS /\ lights_on_until s' = 0).
Proof.
  intros HD [Hl Hm] Inv. rewrite tick_unfold. cbn zeta. cbn [fst].
  apply tick_lights_strip; [exact Hm|].
  destruct (tick_camera_keeps_windows cfg e (fst (tick_sense cfg e s)))
    as (E1 & _ & E2).
  apply (strip_consistent_fields _ _ E1 E2).
  apply tick_sense_strip; assumption.
Qed.

Lemma run_strip cfg es : forall s,
  0 < LIGHT_ON_DURATION cfg -> Forall light_clock_nonneg es ->
  strip_consistent s -> strip_consistent (fst (run cfg es s)).
Proof.
  induction es as [|e es IH]; intros s HD Hes Inv; [exact Inv|].
  rewrite run_cons. cbn [fst]. inversion Hes as [|e0 es0 He Hes']; subst.
  apply IH; [exact HD | exact Hes'|].
  apply (tick_strip cfg e s HD He Inv).
Qed.

(** X5.  With a positive light duration and clock reads that are not
    negative, after every iteration the strip agrees with the light
    window as read at the end of that iteration: all twelve pixels carry
    the full-brightness colour when the window is active, and when it is
    not they are all off and the stored expiry is 0. *)
Theorem strip_matches_light_window :
  forall (cfg : Config) (es : list TickEnv) (e : TickEnv) (s : State),
    0 < LIGHT_ON_DURATION cfg ->
    strip_consistent s ->
    Forall light_clock_nonneg es -> light_clock_nonneg e ->
    let s' := fst (tick cfg e (fst (run cfg es s))) in
    (should_lights_be_on (env_t_manage e) s' = true ->
     pixels s' = repeat LED_COLOR NUM_PIXELS) /\
    (should_lights_be_on (env_t_manage e) s' = false ->
     pixels s' = repeat 0%Z NUM_PIXELS /\ lights_on_until s' = 0).
Proof.
  intros cfg es e s HD Inv Hes He s'.
  pose proof (run_strip cfg es s HD Hes Inv) as Inv1.
  exact (proj2 (tick_strip cfg e _ HD He Inv1)).
Qed.

Lemma strip_matches_light_window_witness :
  0 < LIGHT_ON_DURATION PR4_config /\
  strip_consistent ready_state /\
  (should_lights_be_on 101
     (fst (tick PR4_config (env_at 101 (Some 100) true paper_env)
             (fst (run PR4_config [env_at 100 (Some 40) true paper_env]
                     ready_state)))) = true ->
   pixels
     (fst (tick PR4_config (env_at 101 (Some 100) true paper_env)
             (fst (run PR4_config [env_at 100 (Some 40) true paper_env]
                     ready_state))))
   = repeat LED_COLOR NUM_PIXELS).
Proof.
  assert (HD : 0 < LIGHT_ON_DURATION PR4_config) by reflexivity.
  assert (Hs : strip_consistent ready_state)
    by (left; split; reflexivity).
  assert (Hn : forall t d w, 0 <= t ->
               light_clock_nonneg (env_at t d true w))
    by (intros t d w Ht; split; exact Ht).
  split; [exact HD|]. split; [exact Hs|].
  refine (proj1 (strip_matches_light_window PR4_config
                   [env_at 100 (Some 40) true paper_env]
                   (env_at 101 (Some 100) true paper_env)
                   ready_state HD Hs _ _)).
  - constructor; [|constructor]. apply Hn. discriminate.
  - apply Hn. discriminate.
Defined.

(** ** What an iteration does with the camera *)

Lemma tick_sense_events cfg e s :
  snd (tick_sense cfg e s) = [] \/
  snd (tick_sense cfg e s)
  = [EvPixelsShow; EvPrint "Lights ON - Dark environment detected"].
Proof.
  unfold tick_sense, turn_on_lights.
  destruct (env_distance e) as [d|]; [|left; reflexivity].
  destruct (object_detected cfg d && is_dark (env_ldr e)); cbn; auto.
Qed.

Lemma tick_lights_events e s :
  snd (tick_lights e s) = [] \/
  snd (tick_lights e s) = [EvPixelsShow; EvPrint "Lights OFF"].
Proof.
  unfold tick_lights. destruct (negb _ && _); cbn; auto.
Qed.

(** The events of an iteration that are not strip updates or console
    lines are those of its camera step. *)
Lemma tick_camera_events cfg e s x :
  x <> EvPixelsShow -> (forall line, x <> EvPrint line) ->
  (In x (snd (tick cfg e s))
   <-> In x (snd (tick_camera cfg e (fst (tick_sense cfg e s))))) /\
  count_event x (snd (tick cfg e s))
  = count_event x (snd (tick_camera cfg e (fst (tick_sense cfg e s)))).
Proof.
  intros Hx Hp. rewrite tick_unfold. cbn zeta. cbn [snd].
  set (ev2 := snd (tick_camera cfg e (fst (tick_sense cfg e s)))).
  assert (Hnot : forall l,
             l = [] \/ (exists line, l = [EvPixelsShow; EvPrint line]) ->
             ~ In x l).
  { intros l [-> | [line ->]]; [intros []|].
    intros [H | [H | []]]; [exact (Hx (eq_sym H)) | exact (Hp _ (eq_sym H))]. }
  assert (H1 : ~ In x (snd (tick_sense cfg e s))).
  { apply Hnot. destruct (tick_sense_events cfg e s) as [-> | ->];
      [left; reflexivity | right; eexists; reflexivity]. }
  assert (H3 : ~ In x (snd (tick_lights e
                 (fst (tick_camera cfg e (fst (tick_sense cfg e s))))))).
  { apply Hnot.
    destruct (tick_lights_events e
                (fst (tick_camera cfg e (fst (tick_sense cfg e s)))))
      as [-> | ->]; [left; reflexivity | right; eexists; reflexivity]. }
  split.
  - rewrite !in_app_iff. tauto.
  - rewrite !count_event_app.
    rewrite (count_event_zero _ _ H1), (count_event_zero _ _ H3). lia.
Qed.

Lemma classify_waste_capture cfg t w s :
  (In EvCapture (snd (classify_waste cfg t w s))
   <-> picam2 s <> None /\ model s <> None /\
       CLASSIFICATION_DELAY cfg <= t - last_classification_time s) /\
  (count_event EvCapture (snd (classify_waste cfg t w s)) <= 1)%nat.
Proof.
  unfold classify_waste.
  destruct (picam2 s), (model s);
    try (split; [split; [intros [] | intros (H1 & H2 & _); congruence]
                | cbn; lia]).
  destruct (Qltb _ _) eqn:Ecool.
  - apply Qltb_lt in Ecool.
    split; [split; [intros [] | intros (_ & _ & H); lra] | cbn; lia].
  - apply Qltb_ge in Ecool.
    destruct (capture w) as [|[frame|]];
      try (split; [split; [intros _; repeat split; (discriminate || exact Ecool)
                          | intros _; left; reflexivity]
                  | cbn; lia]).
    destruct (N.eqb (frame_size frame) 0);
      [split; [split; [intros _; repeat split; (discriminate || exact Ecool)
                      | intros _; left; reflexivity]
              | cbn; lia]|].
    destruct (camera_window_open s), (infer w) as [|results];
      try destruct (classification_of results);
      (split; [split; [intros _; repeat split; (discriminate || exact Ecool)
                      | intros _; left; reflexivity]
              | cbn; lia]).
Qed.

Lemma tick_camera_capture cfg e s :
  (In EvCapture (snd (tick_camera cfg e s))
   <-> env_t_now e < camera_active_until s /\
       picam2 s <> None /\ model s <> None /\
       CLASSIFICATION_DELAY cfg
         <= env_t_classify e - last_classification_time s) /\
  (count_event EvCapture (snd (tick_camera cfg e s)) <= 1)%nat.
Proof.
  unfold tick_camera.
  destruct (classify_waste_capture cfg (env_t_classify e) (env_camera e) s)
    as [Hiff Hcount].
  destruct (Qltb (env_t_now e) (camera_active_until s)) eqn:Ew.
  - apply Qltb_lt in Ew.
    destruct (picam2 s) as [cam|] eqn:Ep; cbn [is_some andb].
    + split; [|exact Hcount]. rewrite Hiff. tauto.
    + split.
      * split; [|intros (_ & H & _); congruence].
        destruct (Qgeb _ _); [|intros []].
        destruct (negb _); state_simpl;
          destruct (camera_window_open s); cbn; intuition discriminate.
      * destruct (Qgeb _ _); [|cbn; lia].
        destruct (negb _); state_simpl;
          destruct (camera_window_open s); cbn; lia.
  - apply Qltb_ge in Ew. cbn [andb]. split.
    + split; [|intros (H & _); lra].
      destruct (Qgeb _ _); [|intros []].
      destruct (negb _); state_simpl;
        destruct (camera_window_open s); cbn; intuition discriminate.
    + destruct (Qgeb _ _); [|cbn; lia].
      destruct (negb _); state_simpl;
        destruct (camera_window_open s); cbn; lia.
Qed.

(** X6.  An iteration polls the camera at most once, and it does so
    exactly when the camera window (as armed by this iteration) is still
    active at its clock read, camera and model are there, and the cooldown
    since the last completed attempt has elapsed.  In particular, an
    object within the threshold, seen by an iteration whose clock does not
    jump past the camera timeout, is photographed in that same iteration
    if camera and model are there and the cooldown has elapsed. *)
Theorem camera_polled_exactly_in_active_window :
  forall (cfg : Config) (e : TickEnv) (s : State),
    (In EvCapture (snd (tick cfg e s))
     <-> env_t_now e < camera_active_until (fst (tick cfg e s)) /\
         picam2 s <> None /\ model s <> None /\
         CLASSIFICATION_DELAY cfg
           <= env_t_classify e - last_classification_time s) /\
    (count_event EvCapture (snd (tick cfg e s)) <= 1)%nat /\
    (forall distance,
        env_distance e = Some distance ->
        distance <= MOTION_THRESHOLD cfg ->
        env_t_now e < env_t_camera e + CAMERA_TIMEOUT cfg ->
        picam2 s <> None -> model s <> None ->
        CLASSIFICATION_DELAY cfg
          <= env_t_classify e - last_classification_time s ->
        In EvCapture (snd (tick cfg e s))).
Proof.
  intros cfg e s.
  destruct (tick_camera_events cfg e s EvCapture) as [Hin Hcount];
    [discriminate | discriminate |].
  destruct (tick_camera_capture cfg e (fst (tick_sense cfg e s)))
    as [Hiff Hle].
  destruct (tick_sense_camera_fields cfg e s)
    as (P1 & M1 & _ & _ & T1 & _).
  assert (Ecam : camera_active_until (fst (tick cfg e s))
                 = camera_active_until (fst (tick_sense cfg e s))).
  { rewrite tick_camera_active_until.
    symmetry. apply tick_sense_windows. }
  rewrite P1, M1, T1 in Hiff.
  assert (Hmain : In EvCapture (snd (tick cfg e s))
                  <-> env_t_now e < camera_active_until (fst (tick cfg e s)) /\
                      picam2 s <> None /\ model s <> None /\
                      CLASSIFICATION_DELAY cfg
                        <= env_t_classify e - last_classification_time s).
  { rewrite Hin, Hiff, Ecam. tauto. }
  split; [exact Hmain|]. split; [rewrite Hcount; exact Hle|].
  intros distance Hd Hnear Hclock Hp Hm Hcool.
  apply Hmain. split; [|auto].
  rewrite tick_camera_active_until. unfold camera_step. rewrite Hd.
  unfold object_detected.
  apply Qle_bool_iff in Hnear. rewrite Hnear. exact Hclock.
Qed.

(** ** Spacing of completed classifications *)

Lemma existsb_event_app x (l1 l2 : list event) :
  existsb (event_eqb x) (l1 ++ l2)
  = existsb (event_eqb x) l1 || existsb (event_eqb x) l2.
Proof. apply existsb_app. Qed.

Lemma classify_waste_imshow cfg t w s :
  let r := classify_waste cfg t w s in
  (existsb (event_eqb EvImshow) (snd r) = true ->
   CLASSIFICATION_DELAY cfg <= t - last_classification_time s /\
   last_classification_time (fst r) = t) /\
  (existsb (event_eqb EvImshow) (snd r) = false ->
   last_classification_time (fst r) = last_classification_time s).
Proof.
  unfold classify_waste.
  destruct (picam2 s), (model s);
    try (cbn; split; [discriminate | reflexivity]).
  destruct (Qltb _ _) eqn:Ecool;
    [cbn; split; [discriminate | reflexivity]|].
  apply Qltb_ge in Ecool.
  destruct (capture w) as [|[frame|]];
    try (cbn; split; [discriminate | reflexivity]).
  destruct (N.eqb (frame_size frame) 0);
    [cbn; split; [discriminate | reflexivity]|].
  destruct (camera_window_open s), (infer w) as [|results];
    try destruct (classification_of results);
    cbn;
    (split;
     [try discriminate; intros _; (split; [exact Ecool | reflexivity])
     | try discriminate; try reflexivity]).
Qed.

Lemma tick_imshow cfg e s :
  let r := tick cfg e s in
  (existsb (event_eqb EvImshow) (snd r) = true ->
   CLASSIFICATION_DELAY cfg
     <= env_t_classify e - last_classification_time s /\
   last_classification_time (fst r) = env_t_classify e) /\
  (existsb (event_eqb EvImshow) (snd r) = false ->
   last_classification_time (fst r) = last_classification_time s).
Proof.
  rewrite tick_unfold. cbn zeta. cbn [fst snd].
  rewrite !existsb_event_app.
  destruct (tick_sense_camera_fields cfg e s)
    as (_ & _ & _ & _ & T1 & _).
  destruct (tick_lights_camera_fields e
              (fst (tick_camera cfg e (fst (tick_sense cfg e s)))))
    as (_ & _ & _ & _ & T3 & _).
  rewrite T3, <- T1.
  assert (E1 : existsb (event_eqb EvImshow) (snd (tick_sense cfg e s))
               = false)
    by (destruct (tick_sense_events cfg e s) as [-> | ->]; reflexivity).
  assert (E3 : existsb (event_eqb EvImshow)
                 (snd (tick_lights e
                    (fst (tick_camera cfg e (fst (tick_sense cfg e s))))))
               = false)
    by (destruct (tick_lights_events e
                    (fst (tick_camera cfg e (fst (tick_sense cfg e s)))))
          as [-> | ->]; reflexivity).
  rewrite E1, E3, orb_false_r. cbn [orb].
  generalize (fst (tick_sense cfg e s)). intro s1.
  unfold tick_camera.
  destruct (Qltb _ _ && _);
    [apply classify_waste_imshow|].
  destruct (Qgeb _ _); [|cbn; split; [discriminate | reflexivity]].
  destruct (negb _); state_simpl;
    destruct (camera_window_open s1); cbn;
    split; try discriminate; reflexivity.
Qed.

Lemma last_cons_default (x : Q) (l : list Q) d d' :
  last (x :: l) d = last (x :: l) d'.
Proof.
  revert x. induction l as [|y l IH]; intro x; [reflexivity|].
  change (last (y :: l) d = last (y :: l) d'). apply IH.
Qed.

Lemma completion_times_cons cfg e es s :
  completion_times cfg (e :: es) s =
  if existsb (event_eqb EvImshow) (snd (tick cfg e s))
  then env_t_classify e :: completion_times cfg es (fst (tick cfg e s))
  else completion_times cfg es (fst (tick cfg e s)).
Proof.
  cbn [completion_times]. destruct (tick cfg e s). reflexivity.
Qed.

(** X7.  Over any number of iterations, the classifications that complete
    are at least [CLASSIFICATION_DELAY] apart, measured at the clock read
    of [classify_waste], and the first one is at least that long after
    the cooldown timestamp the run starts with; the timestamp stored at
    the end is the time of the last completed one. *)
Theorem completed_classifications_are_spaced :
  forall (cfg : Config) (es : list TickEnv) (s : State),
    spaced (CLASSIFICATION_DELAY cfg) (last_classification_time s)
           (completion_times cfg es s) /\
    last_classification_time (fst (run cfg es s))
    = last (completion_times cfg es s) (last_classification_time s).
Proof.
  intros cfg es. induction es as [|e es IH]; intro s.
  - cbn. auto.
  - rewrite completion_times_cons, run_cons. cbn [fst].
    destruct (tick_imshow cfg e s) as [Hyes Hno].
    destruct (IH (fst (tick cfg e s))) as [IHs IHl].
    destruct (existsb (event_eqb EvImshow) (snd (tick cfg e s))).
    + destruct (Hyes eq_refl) as [Hgap Et]. rewrite Et in IHs, IHl.
      split; [split; [exact Hgap | exact IHs]|].
      rewrite IHl.
      destruct (completion_times cfg es (fst (tick cfg e s))) as [|q l];
        [reflexivity|].
      change (last (env_t_classify e :: q :: l) (last_classification_time s))
        with (last (q :: l) (last_classification_time s)).
      apply last_cons_default.
    + rewrite (Hno eq_refl) in IHs, IHl. split; assumption.
Qed.

(** ** The preview window flag *)

Lemma classify_waste_window cfg t w s :
  let r := classify_waste cfg t w s in
  (In EvNamedWindow (snd r) ->
   camera_window_open s = false /\ camera_window_open (fst r) = true) /\
  (~ In EvNamedWindow (snd r) ->
   camera_window_open (fst r) = camera_window_open s) /\
  ~ In EvDestroyAllWindows (snd r) /\
  (In EvImshow (snd r) -> camera_window_open (fst r) = true) /\
  (count_event EvNamedWindow (snd r) <= 1)%nat.
Proof.
  unfold classify_waste.
  destruct (picam2 s), (model s);
    try solve [cbn; intuition (try discriminate; try lia)].
  destruct (Qltb _ _); [cbn; intuition (try discriminate; try lia)|].
  destruct (capture w) as [|[frame|]];
    try solve [cbn; intuition (try discriminate; try lia)].
  destruct (N.eqb (frame_size frame) 0);
    [cbn; intuition (try discriminate; try lia)|].
  destruct (camera_window_open s) eqn:Eo, (infer w) as [|results];
    try destruct (classification_of results);
    cbn; intuition (try discriminate; try lia).
Qed.

(** X8.  The flag [camera_window_open] follows the window calls of an
    iteration: a window is created only when the flag is down, and raises
    it; the windows are destroyed only when the flag is up, and that
    lowers it; an iteration does at most one of the two, and without
    either the flag stays.  A frame is only ever shown with the flag up. *)
Theorem window_flag_follows_window_calls :
  forall (cfg : Config) (e : TickEnv) (s : State),
    let s' := fst (tick cfg e s) in
    let ev := snd (tick cfg e s) in
    (In EvNamedWindow ev ->
     camera_window_open s = false /\ camera_window_open s' = true) /\
    (In EvDestroyAllWindows ev ->
     camera_window_open s = true /\ camera_window_open s' = false) /\
    (~ In EvNamedWindow ev -> ~ In EvDestroyAllWindows ev ->
     camera_window_open s' = camera_window_open s) /\
    (count_event EvNamedWindow ev + count_event EvDestroyAllWindows ev
     <= 1)%nat /\
    (In EvImshow ev -> camera_window_open s' = true).
Proof.
  intros cfg e s s' ev. subst s' ev.
  destruct (tick_camera_events cfg e s EvNamedWindow) as [Hn Cn];
    [discriminate | discriminate |].
  destruct (tick_camera_events cfg e s EvDestroyAllWindows) as [Hd Cd];
    [discriminate | discriminate |].
  destruct (tick_camera_events cfg e s EvImshow) as [Hi _];
    [discriminate | discriminate |].
  rewrite Hn, Hd, Hi, Cn, Cd.
  assert (Eo : camera_window_open (fst (tick cfg e s))
               = camera_window_open
                   (fst (tick_camera cfg e (fst (tick_sense cfg e s))))).
  { rewrite tick_unfold. cbn zeta. cbn [fst].
    apply (tick_lights_camera_fields e
             (fst (tick_camera cfg e (fst (tick_sense cfg e s))))). }
  rewrite Eo.
  destruct (tick_sense_camera_fields cfg e s)
    as (_ & _ & _ & _ & _ & O1 & _).
  rewrite <- O1.
  generalize (fst (tick_sense cfg e s)). intro s1.
  unfold tick_camera.
  destruct (Qltb _ _ && _).
  - destruct (classify_waste_window cfg (env_t_classify e) (env_camera e) s1)
      as (W1 & W2 & W3 & W4 & W5).
    rewrite (count_event_zero _ _ W3).
    split; [exact W1|]. split; [intro H; contradiction|].
    split; [intros H _; exact (W2 H)|]. split; [lia | exact W4].
  - destruct (Qgeb _ _);
      [|cbn; intuition (try discriminate; try lia)].
    destruct (negb _); state_simpl;
      destruct (camera_window_open s1) eqn:Eopen; cbn;
      intuition (try discriminate; try lia).
Qed.

(** ** The windows do not depend on the camera *)

Lemma tick_sense_same_windows cfg e1 e2 s1 s2 :
  same_sensors e1 e2 -> same_windows s1 s2 ->
  same_windows (fst (tick_sense cfg e1 s1)) (fst (tick_sense cfg e2 s2)).
Proof.
  intros (Hd & Hl & Hc & Hli & _) (El & Ec & Ep).
  unfold tick_sense, turn_on_lights, same_windows.
  rewrite Hd, Hl, Hc, Hli.
  destruct (env_distance e2) as [d|]; [|cbn; auto].
  destruct (object_detected cfg d), (is_dark (env_ldr e2)); cbn;
    rewrite ?El, ?Ec, ?Ep; auto.
Qed.

Lemma tick_lights_same_windows e1 e2 s1 s2 :
  env_t_manage e1 = env_t_manage e2 -> same_windows s1 s2 ->
  same_windows (fst (tick_lights e1 s1)) (fst (tick_lights e2 s2)).
Proof.
  intros Hm (El & Ec & Ep).
  unfold tick_lights, should_lights_be_on, turn_off_lights, same_windows.
  rewrite Hm, El.
  destruct (negb _ && _); cbn; rewrite ?Ec, ?Ep; auto.
Qed.

Lemma tick_same_windows cfg e1 e2 s1 s2 :
  same_sensors e1 e2 -> same_windows s1 s2 ->
  same_windows (fst (tick cfg e1 s1)) (fst (tick cfg e2 s2)).
Proof.
  intros Hs Hw. rewrite !tick_unfold. cbn zeta. cbn [fst].
  apply tick_lights_same_windows; [apply Hs|].
  pose proof (tick_sense_same_windows cfg e1 e2 s1 s2 Hs Hw)
    as (El & Ec & Ep).
  destruct (tick_camera_keeps_windows cfg e1 (fst (tick_sense cfg e1 s1)))
    as (A1 & A2 & A3).
  destruct (tick_camera_keeps_windows cfg e2 (fst (tick_sense cfg e2 s2)))
    as (B1 & B2 & B3).
  unfold same_windows. rewrite A1, A2, A3, B1, B2, B3. auto.
Qed.

(** X9.  Neither window nor the strip depends on the camera: two runs
    that get the same distance, light-sensor and clock inputs, from
    states that agree on both expiries and on the pixels, end with the
    same light expiry, the same camera expiry and the same pixels,
    whatever camera, model, captures, inferences, cooldown or current
    result each of them has. *)
Theorem windows_do_not_depend_on_camera :
  forall (cfg : Config) (es1 es2 : list TickEnv) (s1 s2 : State),
    Forall2 same_sensors es1 es2 ->
    same_windows s1 s2 ->
    same_windows (fst (run cfg es1 s1)) (fst (run cfg es2 s2)).
Proof.
  intros cfg es1 es2 s1 s2 Hes. revert s1 s2.
  induction Hes as [|e1 e2 es1 es2 He Hes IH]; intros s1 s2 Hw.
  - exact Hw.
  - rewrite !run_cons. cbn [fst]. apply IH.
    apply tick_same_windows; assumption.
Qed.

Lemma windows_do_not_depend_on_camera_witness :
  Forall2 same_sensors (cycle paper_env) (cycle capture_raises_env) /\
  same_windows ready_state failed_start /\
  same_windows (fst (run PR4_config (cycle paper_env) ready_state))
               (fst (run PR4_config (cycle capture_raises_env)
                       failed_start)).
Proof.
  assert (H1 : Forall2 same_sensors (cycle paper_env)
                 (cycle capture_raises_env))
    by (repeat constructor).
  assert (H2 : same_windows ready_state failed_start)
    by (repeat split).
  split; [exact H1|]. split; [exact H2|].
  exact (windows_do_not_depend_on_camera PR4_config _ _ _ _ H1 H2).
Defined.

(** ** Sensor faults *)

(** X10.  An iteration without a distance reading, or whose light-sensor
    read raises, never switches the strip on: no "Lights ON" line, and
    the light expiry afterwards is the old one or 0.  Without a reading
    the camera window is not armed either; a faulting light sensor alone
    does not keep a detected object from arming the camera window. *)
Theorem sensor_fault_never_switches_light_on :
  forall (cfg : Config) (e : TickEnv) (s : State),
    env_distance e = None \/ env_ldr e = None ->
    ~ In (EvPrint "Lights ON - Dark environment detected")
         (snd (tick cfg e s)) /\
    (lights_on_until (fst (tick cfg e s)) = lights_on_until s \/
     lights_on_until (fst (tick cfg e s)) = 0) /\
    (env_distance e = None ->
     camera_active_until (fst (tick cfg e s)) = camera_active_until s) /\
    (forall distance,
        env_distance e = Some distance ->
        distance <= MOTION_THRESHOLD cfg ->
        camera_active_until (fst (tick cfg e s))
        = env_t_camera e + CAMERA_TIMEOUT cfg).
Proof.
  intros cfg e s Hfault.
  assert (Harm : light_arm cfg e (lights_on_until s) = lights_on_until s).
  { unfold light_arm.
    destruct Hfault as [-> | Hl]; [reflexivity|].
    rewrite Hl. cbn [is_dark].
    destruct (env_distance e); [rewrite andb_false_r|]; reflexivity. }
  assert (Hsense : snd (tick_sense cfg e s) = []).
  { unfold tick_sense.
    destruct Hfault as [-> | Hl]; [reflexivity|].
    rewrite Hl. cbn [is_dark].
    destruct (env_distance e); [rewrite andb_false_r|]; reflexivity. }
  split; [|split; [|split]].
  - rewrite tick_unfold. cbn zeta. cbn [snd]. rewrite Hsense. cbn [app].
    rewrite in_app_iff. intros [H | H].
    + revert H. generalize (fst (tick_sense cfg e s)). intros s1 H.
      unfold tick_camera, classify_waste in H.
      destruct (Qltb _ _ && _).
      * destruct (picam2 s1), (model s1); try contradiction.
        destruct (Qltb _ _); [contradiction|].
        destruct (capture (env_camera e)) as [|[frame|]];
          try (cbn in H; intuition discriminate).
        destruct (N.eqb (frame_size frame) 0);
          [cbn in H; intuition discriminate|].
        destruct (camera_window_open s1),
          (infer (env_camera e)) as [|results];
          try destruct (classification_of results);
          cbn in H; intuition discriminate.
      * destruct (Qgeb _ _); [|contradiction].
        destruct (negb _); state_simpl;
          destruct (camera_window_open s1); cbn in H;
          intuition discriminate.
    + destruct (tick_lights_events e
                  (fst (tick_camera cfg e (fst (tick_sense cfg e s)))))
        as [E | E]; rewrite E in H; cbn in H; intuition discriminate.
  - rewrite tick_lights_on_until. unfold light_step. rewrite Harm.
    destruct (negb _ && _); auto.
  - intro Hd. rewrite tick_camera_active_until. unfold camera_step.
    rewrite Hd. reflexivity.
  - intros distance Hd Hnear. rewrite tick_camera_active_until.
    unfold camera_step, object_detected. rewrite Hd.
    apply Qle_bool_iff in Hnear. rewrite Hnear. reflexivity.
Qed.

Lemma sensor_fault_never_switches_light_on_witness :
  (env_distance (env_at 100 None true paper_env) = None \/
   env_ldr (env_at 100 None true paper_env) = None) /\
  ~ In (EvPrint "Lights ON - Dark environment detected")
       (snd (tick PR4_config (env_at 100 None true paper_env) ready_state)).
Proof.
  split; [left; reflexivity|].
  exact (proj1 (sensor_fault_never_switches_light_on PR4_config
                  (env_at 100 None true paper_env) ready_state
                  (or_introl eq_refl))).
Defined.

(** ** Range sensor: the distance that is returned *)

Section RangeSensorDistance.
Variable clock : nat -> Q.
Variable echo : nat -> option bool.

Let timeout := deadline clock.

Lemma wait_fall_distance fuel : forall k start_time end_time d i,
  wait_fall clock echo fuel k start_time end_time timeout
  = Returned (Some d) i ->
  (forall j, (k <= j < i)%nat -> echo j = Some true) /\
  echo i = Some false /\
  ((i = k /\ d = (end_time - start_time) * 34300 / 2) \/
   ((k < i)%nat /\ clock i <= timeout /\
    d = (clock i - start_time) * 34300 / 2)).
Proof.
  induction fuel as [|fuel IH]; intros k st et d i H; [discriminate|].
  cbn [wait_fall] in H.
  destruct (echo k) as [[|]|] eqn:Ek; [| |discriminate].
  - destruct (Qgtb (clock (S k)) timeout) eqn:E; [discriminate|].
    apply Qgtb_le in E.
    destruct (IH _ _ _ _ _ H) as (Hhigh & Hlow & Hd).
    split; [|split; [exact Hlow|]].
    + intros j Hj. destruct (Nat.eq_dec j k) as [-> | Hne];
        [exact Ek | apply Hhigh; lia].
    + right. destruct Hd as [[-> ->] | (Hlt & Hle & ->)].
      * split; [lia|]. split; [exact E | reflexivity].
      * split; [lia|]. split; [exact Hle | reflexivity].
  - injection H as <- <-.
    split; [intros j Hj; lia|]. split; [exact Ek|].
    left. split; reflexivity.
Qed.

Lemma wait_rise_distance fuel : forall k start_time d i,
  wait_rise clock echo fuel k start_time timeout = Returned (Some d) i ->
  exists a start,
    (k <= a < i)%nat /\
    (forall j, (k <= j < a)%nat -> echo j = Some false) /\
    (forall j, (a <= j < i)%nat -> echo j = Some true) /\
    echo i = Some false /\
    d = (clock i - start) * 34300 / 2 /\
    ((a = k /\ start = start_time) \/
     ((k < a)%nat /\ start = clock a /\ clock a <= timeout)) /\
    (i = S a \/ clock i <= timeout).
Proof.
  induction fuel as [|fuel IH]; intros k st d i H; [discriminate|].
  cbn [wait_rise] in H.
  destruct (echo k) as [[|]|] eqn:Ek; [| |discriminate].
  - destruct (wait_fall_distance _ _ _ _ _ _ H) as (Hhigh & Hlow & Hd).
    exists k, st.
    assert (Hi : (S k <= i)%nat) by (destruct Hd as [[-> _] | [? _]]; lia).
    split; [lia|]. split; [intros j Hj; lia|].
    split; [|split; [exact Hlow|]].
    + intros j Hj. destruct (Nat.eq_dec j k) as [-> | Hne];
        [exact Ek | apply Hhigh; lia].
    + destruct Hd as [[-> ->] | (Hlt & Hle & ->)].
      * split; [reflexivity|]. split; [left; split; reflexivity|].
        left. reflexivity.
      * split; [reflexivity|]. split; [left; split; reflexivity|].
        right. exact Hle.
  - destruct (Qgtb (clock (S k)) timeout) eqn:E; [discriminate|].
    apply Qgtb_le in E.
    destruct (IH _ _ _ _ H)
      as (a & start & Ha & Hbefore & Hhigh & Hlow & Hd & Hstart & Hend).
    exists a, start.
    split; [lia|]. split; [|split; [exact Hhigh|split; [exact Hlow|]]].
    + intros j Hj. destruct (Nat.eq_dec j k) as [-> | Hne];
        [exact Ek | apply Hbefore; lia].
    + split; [exact Hd|]. split; [|exact Hend].
      right. destruct Hstart as [[-> ->] | (Hlt & -> & Hle)].
      * split; [lia|]. split; [reflexivity | exact E].
      * split; [lia|]. split; [reflexivity | exact Hle].
Qed.

Lemma measure_distance_one_pulse fuel d i :
  measure_distance clock echo fuel = Returned (Some d) i ->
  exists a,
    pulse echo a i /\
    d = (clock i - clock a) * 34300 / 2 /\
    (a = 0%nat \/ clock a <= timeout) /\
    (i = S a \/ clock i <= timeout).
Proof.
  intro H. unfold measure_distance in H.
  destruct (wait_rise_distance _ _ _ _ _ H)
    as (a & start & Ha & Hbefore & Hhigh & Hlow & Hd & Hstart & Hend).
  exists a. split.
  - split; [lia|]. split; [intros j Hj; apply Hbefore; lia|].
    split; [exact Hhigh | exact Hlow].
  - assert (Es : start = clock a)
      by (destruct Hstart as [[-> ->] | (_ & -> & _)]; reflexivity).
    subst start. split; [exact Hd|].
    split; [|exact Hend].
    destruct Hstart as [[-> _] | (_ & _ & Hle)]; auto.
Qed.

Lemma clock_monotone :
  (forall k, clock k <= clock (S k)) ->
  forall a b, (a <= b)%nat -> clock a <= clock b.
Proof.
  intros Hstep a b Hab. induction Hab as [|b Hab IH]; [apply Qle_refl|].
  eapply Qle_trans; [exact IH | apply Hstep].
Qed.

(** *** A pulse within the deadline is measured *)

Variables a b : nat.
Hypothesis echo_pulse : pulse echo a b.

Lemma wait_fall_at_end fuel start_time end_time :
  wait_fall clock echo (S fuel) b start_time end_time timeout
  = Returned (Some ((end_time - start_time) * 34300 / 2)) b.
Proof.
  cbn [wait_fall]. destruct echo_pulse as (_ & _ & _ & ->). reflexivity.
Qed.

Lemma wait_fall_pulse fuel : forall k start_time end_time,
  (a <= k < b)%nat ->
  (forall j, (k < j <= b)%nat -> clock j <= timeout) ->
  (b - k < fuel)%nat ->
  wait_fall clock echo fuel k start_time end_time timeout
  = Returned (Some ((clock b - start_time) * 34300 / 2)) b.
Proof.
  induction fuel as [|fuel IH]; intros k st et Hk Hclock Hfuel; [lia|].
  cbn [wait_fall].
  destruct echo_pulse as (_ & _ & Hhigh & _).
  rewrite (Hhigh k Hk).
  assert (E : Qgtb (clock (S k)) timeout = false)
    by (apply Qgtb_le; apply Hclock; lia).
  rewrite E.
  destruct (Nat.eq_dec (S k) b) as [Eb | Hne].
  - destruct fuel as [|fuel]; [lia|].
    rewrite Eb. rewrite wait_fall_at_end. reflexivity.
  - apply IH; [lia | intros j Hj; apply Hclock; lia | lia].
Qed.

Lemma wait_rise_pulse fuel : forall k,
  (k <= a)%nat ->
  (forall j, (k < j <= a)%nat -> clock j <= timeout) ->
  (forall j, (a + 2 <= j <= b)%nat -> clock j <= timeout) ->
  (b - k < fuel)%nat ->
  wait_rise clock echo fuel k (clock k) timeout
  = Returned (Some ((clock b - clock a) * 34300 / 2)) b.
Proof.
  induction fuel as [|fuel IH]; intros k Hk Hrise Hfall Hfuel; [lia|].
  cbn [wait_rise].
  destruct echo_pulse as (Hab & Hlow & Hhigh & _).
  destruct (Nat.eq_dec k a) as [-> | Hne].
  - rewrite (Hhigh a ltac:(lia)).
    destruct (Nat.eq_dec (S a) b) as [Eb | Hnb].
    + destruct fuel as [|fuel]; [lia|].
      rewrite Eb. rewrite wait_fall_at_end. reflexivity.
    + apply wait_fall_pulse;
        [lia | intros j Hj; apply Hfall; lia | lia].
  - rewrite (Hlow k ltac:(lia)).
    assert (E : Qgtb (clock (S k)) timeout = false)
      by (apply Qgtb_le; apply Hrise; lia).
    rewrite E.
    apply IH; [lia | intros j Hj; apply Hrise; lia | exact Hfall | lia].
Qed.
End RangeSensorDistance.

(** X11.  A distance is returned only for one clean pulse: the echo reads
    were low up to some read [a], high from [a] on and low at the last
    read [i], none of them raised, and the distance is the clock time
    from read [a] to read [i] times 34300 / 2.  With a clock that does
    not run backwards the distance is not negative; it is at most
    1715 cm, the 100 ms of the timeout, unless the pulse ended at the very
    next read, where it is one clock step at most. *)
Theorem distance_comes_from_one_pulse :
  forall (clock : nat -> Q) (echo : nat -> option bool)
         (fuel : nat) (d : Q) (i : nat),
    measure_distance clock echo fuel = Returned (Some d) i ->
    exists a,
      pulse echo a i /\
      d = (clock i - clock a) * 34300 / 2 /\
      (forall k, (k <= i)%nat -> echo k <> None) /\
      ((forall k, clock k <= clock (S k)) ->
       0 <= d /\
       (d <= 1715 \/
        (i = S a /\ forall step_max,
                      clock (S a) <= clock a + step_max ->
                      d <= 17150 * step_max))).
Proof.
  intros clock echo fuel d i H.
  destruct (measure_distance_one_pulse clock echo fuel d i H)
    as (a & Hp & Hd & Hstart & Hend).
  exists a. split; [exact Hp|]. split; [exact Hd|]. split.
  - intros k Hk. destruct Hp as (Hab & Hlow & Hhigh & Hi).
    destruct (Nat.lt_ge_cases k a) as [Hlt | Hge].
    + rewrite (Hlow k Hlt). discriminate.
    + destruct (Nat.eq_dec k i) as [-> | Hne];
        [rewrite Hi; discriminate|].
      rewrite (Hhigh k ltac:(lia)). discriminate.
  - intro Hmono.
    pose proof (clock_monotone clock Hmono) as Hle.
    destruct Hp as (Hab & _).
    pose proof (Hle a i ltac:(lia)) as Hai.
    pose proof (Hle 0%nat a ltac:(lia)) as H0a.
    assert (E : forall x, x * 34300 / 2 == x * 17150)
      by (intro x; field).
    subst d. split; [rewrite E; lra|].
    destruct Hend as [-> | Hin].
    + right. split; [reflexivity|]. intros step_max Hs. rewrite E. lra.
    + left. unfold deadline in Hin. rewrite E. lra.
Qed.

Lemma distance_comes_from_one_pulse_witness :
  exists a,
    pulse (fun k => Some (Nat.eqb k 1 || Nat.eqb k 2)) a 3 /\
    ((3 # 1000) - (1 # 1000)) * 34300 / 2
    = (inject_Z (Z.of_nat 3) * (1 # 1000)
       - inject_Z (Z.of_nat a) * (1 # 1000)) * 34300 / 2.
Proof.
  destruct (distance_comes_from_one_pulse
              (fun k => inject_Z (Z.of_nat k) * (1 # 1000))
              (fun k => Some (Nat.eqb k 1 || Nat.eqb k 2)) 10
              (((3 # 1000) - (1 # 1000)) * 34300 / 2) 3
              measure_distance_pulse)
    as (a & Hp & Hd & _).
  exists a. split; [exact Hp | exact Hd].
Defined.

(** X12.  A pulse that rises at echo read [a] and falls at echo read [b],
    with every clock read the loops compare up to then within the
    deadline, is measured: for any fuel above [b] the result is the clock
    time from read [a] to read [b] times 34300 / 2, returned at read
    [b]. *)
Theorem pulse_within_deadline_is_measured :
  forall (clock : nat -> Q) (echo : nat -> option bool) (a b fuel : nat),
    pulse echo a b ->
    (forall j, (1 <= j <= a)%nat -> clock j <= deadline clock) ->
    (forall j, (a + 2 <= j <= b)%nat -> clock j <= deadline clock) ->
    (b < fuel)%nat ->
    measure_distance clock echo fuel
    = Returned (Some ((clock b - clock a) * 34300 / 2)) b.
Proof.
  intros clock echo a b fuel Hp Hrise Hfall Hfuel.
  unfold measure_distance.
  apply (wait_rise_pulse clock echo a b Hp fuel 0%nat);
    [lia | intros j Hj; apply Hrise; lia | exact Hfall | lia].
Qed.

Lemma pulse_within_deadline_is_measured_witness :
  pulse (fun k => Some (Nat.eqb k 1 || Nat.eqb k 2)) 1 3 /\
  measure_distance (fun k => inject_Z (Z.of_nat k) * (1 # 1000))
                   (fun k => Some (Nat.eqb k 1 || Nat.eqb k 2)) 4
  = Returned (Some ((inject_Z (Z.of_nat 3) * (1 # 1000)
                     - inject_Z (Z.of_nat 1) * (1 # 1000)) * 34300 / 2)) 3.
Proof.
  assert (Hp : pulse (fun k => Some (Nat.eqb k 1 || Nat.eqb k 2)) 1 3).
  { split; [lia|]. split; [|split; [|reflexivity]].
    - intros k Hk. assert (k = 0%nat) as -> by lia. reflexivity.
    - intros k Hk. assert (k = 1%nat \/ k = 2%nat) as [-> | ->] by lia;
        reflexivity. }
  split; [exact Hp|].
  apply (pulse_within_deadline_is_measured
           (fun k => inject_Z (Z.of_nat k) * (1 # 1000)) _ 1 3 4 Hp).
  - intros j Hj. assert (j = 1%nat) as -> by lia. discriminate.
  - intros j Hj. assert (j = 3%nat) as -> by lia. discriminate.
  - lia.
Defined.

(** ** The baseline of the motion detector *)

Lemma detect_motion_seq_state_cons d ds s :
  snd (detect_motion_seq (d :: ds) s)
  = snd (detect_motion_seq ds (snd (detect_motion d s))).
Proof.
  cbn [detect_motion_seq].
  destruct (detect_motion d s) as [m s1]. cbn [snd].
  destruct (detect_motion_seq ds s1) as [ms s2]. reflexivity.
Qed.

Lemma detect_motion_seq_last ds : forall d s,
  previous_distance (snd (detect_motion_seq (ds ++ [d]) s)) = Some d.
Proof.
  induction ds as [|x ds IH]; intros d s.
  - cbn [app]. rewrite detect_motion_seq_state_cons. cbn [detect_motion_seq snd].
    apply detect_motion_previous.
  - cbn [app]. rewrite detect_motion_seq_state_cons. apply IH.
Qed.

Lemma detect_motion_seq_other_fields ds : forall s,
  set_previous_distance None (snd (detect_motion_seq ds s))
  = set_previous_distance None s.
Proof.
  induction ds as [|x ds IH]; intro s; [reflexivity|].
  rewrite detect_motion_seq_state_cons, IH.
  unfold detect_motion. destruct (previous_distance s); reflexivity.
Qed.

(** X13.  However many samples were fed and whatever was answered for
    them, the stored baseline is the latest sample and no other field of
    the state has changed; the next sample is reported as motion exactly
    when it is more than 5 cm away from that latest sample, so a sample
    exactly 5 cm away, or the same sample again, is not. *)
Theorem detect_motion_baseline_is_latest_sample :
  forall (ds : list Q) (d : Q) (s : State),
    let s' := snd (detect_motion_seq (ds ++ [d]) s) in
    previous_distance s' = Some d /\
    set_previous_distance None s' = set_previous_distance None s /\
    (forall x, fst (detect_motion x s') = true <-> 5 < Qabs (x - d)) /\
    fst (detect_motion d s') = false /\
    fst (detect_motion (d + 5) s') = false /\
    fst (detect_motion (d - 5) s') = false.
Proof.
  intros ds d s s'.
  assert (Hp : previous_distance s' = Some d)
    by apply detect_motion_seq_last.
  assert (Hx : forall x, fst (detect_motion x s') = true
                         <-> 5 < Qabs (x - d)).
  { intro x. unfold detect_motion. rewrite Hp. cbn [fst].
    apply Qgtb_gt. }
  assert (Hnot : forall x, Qabs (x - d) <= 5 ->
                           fst (detect_motion x s') = false).
  { intros x Hle. destruct (fst (detect_motion x s')) eqn:E;
      [|reflexivity].
    apply Hx in E. lra. }
  split; [exact Hp|]. split; [apply detect_motion_seq_other_fields|].
  split; [exact Hx|].
  split; [|split]; apply Hnot; apply Qabs_Qle_condition; lra.
Qed.

(** ** From start-up on *)

Lemma tick_keeps_handles cfg e s :
  picam2 (fst (tick cfg e s)) = picam2 s /\
  model (fst (tick cfg e s)) = model s /\
  is_running (fst (tick cfg e s)) = is_running s.
Proof.
  rewrite tick_unfold. cbn zeta. cbn [fst].
  assert (H3 : forall s2,
             picam2 (fst (tick_lights e s2)) = picam2 s2 /\
             model (fst (tick_lights e s2)) = model s2 /\
             is_running (fst (tick_lights e s2)) = is_running s2).
  { intro s2. unfold tick_lights. destruct (negb _ && _); cbn; auto. }
  assert (H2 : forall s1,
             picam2 (fst (tick_camera cfg e s1)) = picam2 s1 /\
             model (fst (tick_camera cfg e s1)) = model s1 /\
             is_running (fst (tick_camera cfg e s1)) = is_running s1).
  { intro s1. unfold tick_camera, classify_waste.
    destruct (Qltb _ _ && _).
    - destruct (picam2 s1) eqn:Ep, (model s1) eqn:Em;
        try (cbn; rewrite ?Ep, ?Em; auto; fail).
      destruct (Qltb _ _); [cbn; rewrite ?Ep, ?Em; auto|].
      destruct (capture (env_camera e)) as [|[frame|]];
        try (cbn; rewrite ?Ep, ?Em; auto; fail).
      destruct (N.eqb (frame_size frame) 0);
        [cbn; rewrite ?Ep, ?Em; auto|].
      destruct (camera_window_open s1),
        (infer (env_camera e)) as [|results];
        try destruct (classification_of results);
        cbn; rewrite ?Ep, ?Em; auto.
    - destruct (Qgeb _ _); [|cbn; auto].
      destruct (negb _); state_simpl;
        destruct (camera_window_open s1); cbn; auto. }
  assert (H1 : picam2 (fst (tick_sense cfg e s)) = picam2 s /\
               model (fst (tick_sense cfg e s)) = model s /\
               is_running (fst (tick_sense cfg e s)) = is_running s).
  { unfold tick_sense. destruct (env_distance e) as [d|]; [|cbn; auto].
    destruct (object_detected cfg d), (is_dark (env_ldr e)); cbn; auto. }
  destruct (H3 (fst (tick_camera cfg e (fst (tick_sense cfg e s)))))
    as (P3 & M3 & R3).
  destruct (H2 (fst (tick_sense cfg e s))) as (P2 & M2 & R2).
  destruct H1 as (P1 & M1 & R1).
  rewrite P3, M3, R3, P2, M2, R2, P1, M1, R1. auto.
Qed.

Lemma run_keeps_handles cfg es : forall s,
  picam2 (fst (run cfg es s)) = picam2 s /\
  model (fst (run cfg es s)) = model s /\
  is_running (fst (run cfg es s)) = is_running s /\
  previous_distance (fst (run cfg es s)) = previous_distance s.
Proof.
  induction es as [|e es IH]; intro s; [cbn; auto|].
  rewrite run_cons. cbn [fst].
  destruct (IH (fst (tick cfg e s))) as (P & M & R & D).
  destruct (tick_keeps_handles cfg e s) as (P1 & M1 & R1).
  rewrite P, M, R, D, P1, M1, R1, tick_keeps_previous_distance. auto.
Qed.

(** X14.  Start-up stores a camera and a model together or neither, and
    the loop keeps what start-up stored: after any number of iterations
    the two handles are still both present or both absent, the loop flag
    is still set, no previous distance was ever stored, and the current
    result is well formed.  If start-up failed, no iteration ever calls
    the camera, the model or a preview window. *)
Theorem loop_keeps_what_startup_stored :
  forall (ok : bool) (cfg : Config) (es : list TickEnv),
    let s0 := init_state (fst (initialize_camera_and_model ok))
                         (snd (initialize_camera_and_model ok)) in
    let s := fst (run cfg es s0) in
    (picam2 s <> None <-> ok = true) /\
    (model s <> None <-> ok = true) /\
    is_running s = true /\
    previous_distance s = None /\
    result_consistent s /\
    (ok = false ->
     forall ev, In ev (snd (run cfg es s0)) ->
                ~ In EvCapture ev /\ ~ In EvInfer ev /\
                ~ In EvNamedWindow ev /\ ~ In EvImshow ev /\
                ~ In EvDestroyAllWindows ev).
Proof.
  intros ok cfg es s0 s.
  destruct (run_keeps_handles cfg es s0) as (P & M & R & D).
  fold s in P, M, R, D.
  assert (Hc : result_consistent s).
  { apply run_consistent. left. split; [reflexivity | left; reflexivity]. }
  split; [|split; [|split; [|split; [|split]]]].
  - rewrite P. subst s0. destruct ok; cbn; split; congruence.
  - rewrite M. subst s0. destruct ok; cbn; split; congruence.
  - rewrite R. reflexivity.
  - rewrite D. reflexivity.
  - exact Hc.
  - intros -> ev Hin. clear P M R D Hc s.
    assert (Hgen : forall s1 : State,
               picam2 s1 = None -> camera_window_open s1 = false ->
               In ev (snd (run cfg es s1)) ->
               ~ In EvCapture ev /\ ~ In EvInfer ev /\
               ~ In EvNamedWindow ev /\ ~ In EvImshow ev /\
               ~ In EvDestroyAllWindows ev).
    { clear Hin s0. induction es as [|e es IH]; intros s1 Hp Ho Hin;
        [destruct Hin|].
      rewrite run_cons in Hin. cbn [snd] in Hin.
      assert (Hstep : (forall x, x <> EvPixelsShow ->
                                 (forall line, x <> EvPrint line) ->
                                 ~ In x (snd (tick cfg e s1))) /\
                      camera_window_open (fst (tick cfg e s1)) = false).
      { split.
        - intros x Hx Hl Hx_in.
          apply (tick_camera_events cfg e s1 x Hx Hl) in Hx_in.
          destruct (tick_sense_camera_fields cfg e s1)
            as (P1 & _ & _ & _ & _ & O1 & _).
          revert Hx_in.
          assert (Hp1 : picam2 (fst (tick_sense cfg e s1)) = None)
            by (rewrite P1; exact Hp).
          assert (Ho1 : camera_window_open (fst (tick_sense cfg e s1))
                        = false) by (rewrite O1; exact Ho).
          generalize dependent (fst (tick_sense cfg e s1)).
          intros s2 _ _ Hp2 Ho2.
          unfold tick_camera. rewrite Hp2. cbn [is_some].
          rewrite andb_false_r.
          destruct (Qgeb _ _); [|intros []].
          destruct (negb _); state_simpl; rewrite Ho2; cbn;
            [|intros []].
          intros [H | []]. exact (Hl _ (eq_sym H)).
        - rewrite tick_unfold. cbn zeta. cbn [fst].
          destruct (tick_lights_camera_fields e
                      (fst (tick_camera cfg e (fst (tick_sense cfg e s1)))))
            as (_ & _ & _ & _ & _ & O3 & _).
          rewrite O3.
          destruct (tick_sense_camera_fields cfg e s1)
            as (P1 & _ & _ & _ & _ & O1 & _).
          assert (Hp1 : picam2 (fst (tick_sense cfg e s1)) = None)
            by (rewrite P1; exact Hp).
          assert (Ho1 : camera_window_open (fst (tick_sense cfg e s1))
                        = false) by (rewrite O1; exact Ho).
          generalize dependent (fst (tick_sense cfg e s1)).
          intros s2 _ _ _ Hp2 Ho2.
          unfold tick_camera. rewrite Hp2. cbn [is_some].
          rewrite andb_false_r.
          destruct (Qgeb _ _); [|cbn; exact Ho2].
          destruct (negb _); state_simpl; rewrite ?Ho2; cbn;
            rewrite ?Ho2; reflexivity. }
      destruct Hstep as [Hnone Hclosed].
      destruct Hin as [<- | Hin].
      - repeat split; apply Hnone; discriminate.
      - apply (IH (fst (tick cfg e s1))); [|exact Hclosed | exact Hin].
        destruct (tick_keeps_handles cfg e s1) as (P1 & _).
        rewrite P1. exact Hp. }
    apply (Hgen s0); [reflexivity | reflexivity | exact Hin].
Qed.

(** The start-up screen has its three lines, top to bottom, 15 pixels
    apart around the middle line; it is not drawn when one of them cannot
    be measured. *)
Lemma display_startup_message_lines font ops :
  display_startup_message font = Some ops ->
  map shown ops = [Text "WASTE"; Text "CLASSIFIER"; Text "Starting..."].
Proof.
  unfold display_startup_message, draw_centered_text. cbn [sequence_ops].
  destruct (text_size font "WASTE") as [[w1 h1]|]; [|discriminate].
  destruct (text_size font "CLASSIFIER") as [[w2 h2]|]; [|discriminate].
  destruct (text_size font "Starting...") as [[w3 h3]|]; [|discriminate].
  intro H. injection H as <-. reflexivity.
Qed.
